(** * QuestionInput: message composition and dispatch

    A shallow embedding of the chat-input component
    [frontend/src/components/QuestionInput/QuestionInput.tsx] and of its
    second revision (the text-only one), followed by the properties of
    [sendQuestion], [handleFileUpload] and the other handlers.

    The component is a React function component: its hooks are the fields of
    a [State] record, a handler reads the state of the render it was created
    in and emits, in program order, a list of effects (state setters, calls
    of the [onSend] prop, calls of the external collaborators).  The state
    seen by the next render is the old one with the setters applied in
    order.  An [async] handler is cut at its [await]: the part before it runs
    in the event that starts it, the part after it in the event that settles
    the awaited promise. *)

From Stdlib Require Import List NArith Bool Ascii String Lia.
Import ListNotations.

Local Open Scope N_scope.
Local Open Scope list_scope.

(** ** JavaScript strings *)

(** A JavaScript string is a sequence of UTF-16 code units. *)
Definition jsstring := list N.

(** An ASCII literal of the source, as code units. *)
Definition lit (s : string) : jsstring :=
  map N_of_ascii (list_ascii_of_string s).

(** The escape [\n]. *)
Definition LF : jsstring := [10].

(** [===] on two strings. *)
Fixpoint str_eqb (a b : jsstring) : bool :=
  match a, b with
  | [], [] => true
  | x :: a', y :: b' => N.eqb x y && str_eqb a' b'
  | _, _ => false
  end.

(** ECMAScript WhiteSpace and LineTerminator code points, the ones
    [String.prototype.trim] removes: TAB, LF, VT, FF, CR, SP, NBSP, the
    other space separators, LS, PS and ZWNBSP. *)
Definition isWhiteSpace (c : N) : bool :=
  (9 <=? c) && (c <=? 13)
  || (c =? 32) || (c =? 160) || (c =? 5760)
  || (8192 <=? c) && (c <=? 8202)
  || (c =? 8232) || (c =? 8233) || (c =? 8239) || (c =? 8287)
  || (c =? 12288) || (c =? 65279).

Fixpoint trimStart (s : jsstring) : jsstring :=
  match s with
  | [] => []
  | c :: r => if isWhiteSpace c then trimStart r else s
  end.

Definition trimEnd (s : jsstring) : jsstring := rev (trimStart (rev s)).

(** [s.trim()] *)
Definition trim (s : jsstring) : jsstring := trimEnd (trimStart s).

(** Truthiness of a string: every string but the empty one. *)
Definition truthy_str (s : jsstring) : bool :=
  match s with [] => false | _ :: _ => true end.

(** Truthiness of [string | null] and [string | undefined]. *)
Definition truthy_opt_str (v : option jsstring) : bool :=
  match v with Some s => truthy_str s | None => false end.

(** Truthiness of [boolean | undefined]. *)
Definition truthy_opt_bool (v : option bool) : bool :=
  match v with Some b => b | None => false end.

(** Truthiness of an object or [null]: an object is always truthy. *)
Definition truthy_obj {A : Type} (v : option A) : bool :=
  match v with Some _ => true | None => false end.

(** ** Data model *)

(** An opaque file handle of the platform's file input. *)
Inductive File : Type := FileHandle (id : N).

(** A value caught by [catch (error)]: an [Error] instance, which carries a
    [message] string, or any other thrown value. *)
Inductive thrown : Type :=
| ThrownError (message : jsstring)
| ThrownOther.

(** How an awaited promise settles. *)
Inductive settled (A : Type) : Type :=
| Fulfilled (value : A)
| Rejected (reason : thrown).
Arguments Fulfilled {A} value.
Arguments Rejected {A} reason.

Record EnhancedContent : Type := {
  summary : jsstring;
  original_text : jsstring
}.

(** Modelled from the spec: the result type of [processDocumentWithAI],
    declared in [../../api], which is not among the sources.  The spec gives
    a success the shape
    [{ filename: string, enhanced_content: { summary: string, original_text: string } }]. *)
Record ProcessedDocument : Type := {
  pd_filename : jsstring;
  pd_enhanced_content : EnhancedContent
}.

(** The object stored by [setUploadedFile]: the processed document spread,
    then [display_summary] and [full_content]. *)
Record UploadedFile : Type := {
  filename : jsstring;
  enhanced_content : EnhancedContent;
  display_summary : jsstring;
  full_content : jsstring
}.

Record TextPart : Type := {
  tp_type : jsstring;
  text : jsstring
}.

Record ImageUrl : Type := { url : jsstring }.

Record ImagePart : Type := {
  ip_type : jsstring;
  image_url : ImageUrl
}.

(** Modelled from the spec: [ChatMessage["content"]], declared in
    [../../api], which is not among the sources: a plain string, or the
    ordered pair of a text part and an image part. *)
Inductive Content : Type :=
| ContentString (s : jsstring)
| ContentParts (t : TextPart) (i : ImagePart).

(** The props of the component.  [onSend] is a callback: its invocations are
    effects, see [effect] below. *)
Record Props : Type := {
  disabled : bool;
  placeholder : option jsstring;
  clearOnSend : option bool;
  conversationId : option jsstring
}.

(** The five [useState] hooks. *)
Record State : Type := {
  question : jsstring;
  base64Image : option jsstring;
  isUploading : bool;
  uploadError : option jsstring;
  uploadedFile : option UploadedFile
}.

(** The state of a freshly mounted component. *)
Definition initial : State :=
  {| question := [];
     base64Image := None;
     isUploading := false;
     uploadError := None;
     uploadedFile := None |}.

(** ** Effects *)

(** What a handler does, besides reading the state of its render. *)
Inductive effect : Type :=
| SetQuestion (v : jsstring)
| SetBase64Image (v : option jsstring)
| SetIsUploading (v : bool)
| SetUploadError (v : option jsstring)
| SetUploadedFile (v : option UploadedFile)
| OnSend1 (q : Content)                       (* onSend(q) *)
| OnSend2 (q : Content) (id : jsstring)       (* onSend(q, id) *)
| ProcessDocumentWithAI (file : File)
| ResizeImage (file : File) (maxWidth maxHeight : N)
| ConsoleError (label : jsstring) (error : thrown)
| PreventDefault.

(** The state after one effect: a setter overwrites its hook, nothing else
    touches the state. *)
Definition apply (s : State) (e : effect) : State :=
  match e with
  | SetQuestion v =>
      {| question := v; base64Image := base64Image s;
         isUploading := isUploading s; uploadError := uploadError s;
         uploadedFile := uploadedFile s |}
  | SetBase64Image v =>
      {| question := question s; base64Image := v;
         isUploading := isUploading s; uploadError := uploadError s;
         uploadedFile := uploadedFile s |}
  | SetIsUploading v =>
      {| question := question s; base64Image := base64Image s;
         isUploading := v; uploadError := uploadError s;
         uploadedFile := uploadedFile s |}
  | SetUploadError v =>
      {| question := question s; base64Image := base64Image s;
         isUploading := isUploading s; uploadError := v;
         uploadedFile := uploadedFile s |}
  | SetUploadedFile v =>
      {| question := question s; base64Image := base64Image s;
         isUploading := isUploading s; uploadError := uploadError s;
         uploadedFile := v |}
  | _ => s
  end.

(** The state after the effects of a handler, applied in program order. *)
Definition run (s : State) (effs : list effect) : State :=
  fold_left apply effs s.

(** An invocation of the [onSend] prop: its arguments, in order. *)
Inductive onSendCall : Type :=
| Call1 (q : Content)
| Call2 (q : Content) (id : jsstring).

Definition arity (c : onSendCall) : nat :=
  match c with Call1 _ => 1%nat | Call2 _ _ => 2%nat end.

Definition payload (c : onSendCall) : Content :=
  match c with Call1 q => q | Call2 q _ => q end.

(** The invocations of [onSend] among the effects of a handler. *)
Fixpoint onSendCalls (effs : list effect) : list onSendCall :=
  match effs with
  | [] => []
  | OnSend1 q :: r => Call1 q :: onSendCalls r
  | OnSend2 q id :: r => Call2 q id :: onSendCalls r
  | _ :: r => onSendCalls r
  end.

(** ** Handlers shared by the two revisions *)

Section Component.

(** The props the component was mounted with. *)
Variable props : Props.

(** [handleImageUpload], up to the [await] inside [convertToBase64]. *)
Definition handleImageUpload (file : option File) : list effect :=
  match file with
  | Some f => [ResizeImage f 800 800]
  | None => []
  end.

(** [convertToBase64], from the point where [resizeImage] settles. *)
Definition convertToBase64_resume (r : settled jsstring) : list effect :=
  match r with
  | Fulfilled resizedBase64 => [SetBase64Image (Some resizedBase64)]
  | Rejected error => [ConsoleError (lit "Error:") error]
  end.

(** [handleFileUpload], up to its [await]. *)
Definition handleFileUpload_begin (file : option File) : list effect :=
  match file with
  | None => []
  | Some f =>
      [SetIsUploading true; SetUploadError None; ProcessDocumentWithAI f]
  end.

(** [error instanceof Error ? error.message : 'Document processing failed'] *)
Definition uploadErrorMessage (error : thrown) : jsstring :=
  match error with
  | ThrownError message => message
  | ThrownOther => lit "Document processing failed"
  end.

(** [handleFileUpload], from the point where [processDocumentWithAI]
    settles: the rest of [try], or [catch], and then [finally]. *)
Definition handleFileUpload_resume (r : settled ProcessedDocument)
  : list effect :=
  match r with
  | Fulfilled processedDocument =>
      [SetUploadedFile (Some
         {| filename := pd_filename processedDocument;
            enhanced_content := pd_enhanced_content processedDocument;
            display_summary :=
              summary (pd_enhanced_content processedDocument);
            full_content :=
              original_text (pd_enhanced_content processedDocument) |})]
  | Rejected error => [SetUploadError (Some (uploadErrorMessage error))]
  end
  ++ [SetIsUploading false].

(** A whole call of [handleFileUpload] with nothing else in between: the
    part before the [await] and, when there was a file, the part after. *)
Definition handleFileUpload (file : option File)
  (r : settled ProcessedDocument) : list effect :=
  match file with
  | None => []
  | Some _ => handleFileUpload_begin file ++ handleFileUpload_resume r
  end.

(** [onQuestionChange]: [setQuestion(newValue || '')]. *)
Definition onQuestionChange (newValue : option jsstring) : list effect :=
  [SetQuestion (if truthy_opt_str newValue
                then match newValue with Some v => v | None => [] end
                else [])].

(** [sendQuestionDisabled], which is also the guard of [sendQuestion]:
    [disabled || (!question.trim() && !uploadedFile)]. *)
Definition sendQuestionDisabled (s : State) : bool :=
  disabled props
  || (negb (truthy_str (trim (question s)))
      && negb (truthy_obj (uploadedFile s))).

(** The text [sendQuestion] assembles in [questionContent]. *)
Definition questionContent (s : State) : jsstring :=
  match uploadedFile s with
  | Some f =>
      lit "File: " ++ filename f ++ LF ++ LF ++ full_content f
      ++ LF ++ LF ++ lit "User Question: " ++ question s
  | None => question s
  end.

(** [questionTest !== undefined]: a string or an array is never
    [undefined]. *)
Definition isDefined (q : Content) : bool := true.

(** The dispatch of [sendQuestion]:
    [if (conversationId && questionTest !== undefined)]. *)
Definition dispatch (questionTest : Content) : list effect :=
  match conversationId props with
  | Some id =>
      if truthy_str id && isDefined questionTest
      then [OnSend2 questionTest id]
      else [OnSend1 questionTest]
  | None => [OnSend1 questionTest]
  end.

End Component.

(** ** The revision of [QuestionInput.tsx] *)

Module QuestionInput.

(** The payload: the two parts when [base64Image] is truthy, the text
    otherwise. *)
Definition questionTest (s : State) : Content :=
  match base64Image s with
  | Some img =>
      if truthy_str img
      then ContentParts
             {| tp_type := lit "text"; text := questionContent s |}
             {| ip_type := lit "image_url";
                image_url := {| url := img |} |}
      else ContentString (questionContent s)
  | None => ContentString (questionContent s)
  end.

Definition sendQuestion (props : Props) (s : State) : list effect :=
  if sendQuestionDisabled props s then []
  else
    dispatch props (questionTest s)
    ++ (if truthy_opt_bool (clearOnSend props)
        then [SetQuestion []; SetUploadedFile None; SetBase64Image None]
        else []).

End QuestionInput.

(** ** The second revision, which sends text only *)

Module Part000.

Definition questionTest (s : State) : Content :=
  ContentString (questionContent s).

Definition sendQuestion (props : Props) (s : State) : list effect :=
  if sendQuestionDisabled props s then []
  else
    dispatch props (questionTest s)
    ++ (if truthy_opt_bool (clearOnSend props)
        then [SetQuestion []; SetUploadedFile None]
        else []).

End Part000.

(** ** Events *)

(** The fields of a keyboard event the handlers read;
    [isComposing] is [ev.nativeEvent?.isComposing]. *)
Record KeyboardEvent : Type := {
  key : jsstring;
  shiftKey : bool;
  isComposing : option bool
}.

(** What can happen to a mounted component.  The second revision keeps the
    image handlers but comments the image input out, so the two image events
    do not occur there; allowing them only adds runs. *)
Inductive event : Type :=
| QuestionChange (newValue : option jsstring)   (* the text field changes *)
| TextKeyDown (ev : KeyboardEvent)              (* a key in the text field *)
| SendClick                                     (* a click on the button *)
| SendKeyDown (ev : KeyboardEvent)              (* a key on the button *)
| FileInputChange (file : option File)          (* the document input *)
| ProcessSettled (r : settled ProcessedDocument)
| ImageInputChange (file : option File)         (* the image input *)
| ResizeSettled (r : settled jsstring).

Section Events.

(** The [sendQuestion] of the revision at hand. *)
Variable sendQuestion : Props -> State -> list effect.
Variable props : Props.

(** [ev.key === 'Enter' && !ev.shiftKey && !(ev.nativeEvent?.isComposing === true)] *)
Definition onEnterPress (ev : KeyboardEvent) (s : State) : list effect :=
  if str_eqb (key ev) (lit "Enter")
     && negb (shiftKey ev)
     && negb (match isComposing ev with Some true => true | _ => false end)
  then PreventDefault :: sendQuestion props s
  else [].

(** [e.key === 'Enter' || e.key === ' ' ? sendQuestion() : null] *)
Definition onSendKeyDown (ev : KeyboardEvent) (s : State) : list effect :=
  if str_eqb (key ev) (lit "Enter") || str_eqb (key ev) (lit " ")
  then sendQuestion props s
  else [].

(** The effects of an event, in the state of the current render. *)
Definition handle (s : State) (e : event) : list effect :=
  match e with
  | QuestionChange newValue => onQuestionChange newValue
  | TextKeyDown ev => onEnterPress ev s
  | SendClick => sendQuestion props s
  | SendKeyDown ev => onSendKeyDown ev s
  | FileInputChange file => handleFileUpload_begin file
  | ProcessSettled r => handleFileUpload_resume r
  | ImageInputChange file => handleImageUpload file
  | ResizeSettled r => convertToBase64_resume r
  end.

(** One step of the component. *)
Definition step (s : State) (e : event) : State := run s (handle s e).

(** The states a sequence of events goes through, the first one left
    out. *)
Fixpoint trace (s : State) (es : list event) : list State :=
  match es with
  | [] => []
  | e :: r => step s e :: trace (step s e) r
  end.

End Events.

(** The start of an upload attempt: the document input changes and holds a
    file. *)
Definition isUploadStart (e : event) : bool :=
  match e with FileInputChange (Some _) => true | _ => false end.

(** The text a payload carries: the string itself, or the text of its text
    part. *)
Definition payloadText (q : Content) : jsstring :=
  match q with
  | ContentString s => s
  | ContentParts t _ => text t
  end.

(** The payload of [QuestionInput.tsx] when the image is taken into it. *)
Definition twoParts (assembled image : jsstring) : Content :=
  ContentParts
    {| tp_type := lit "text"; text := assembled |}
    {| ip_type := lit "image_url"; image_url := {| url := image |} |}.

(** The effects that leave [uploadError] alone. *)
Definition keepsUploadError (e : effect) : bool :=
  match e with SetUploadError _ => false | _ => true end.


(** ** Sample props and states *)

Definition enabledProps : Props :=
  {| disabled := false; placeholder := None;
     clearOnSend := None; conversationId := None |}.

Definition clearingProps : Props :=
  {| disabled := false; placeholder := None;
     clearOnSend := Some true; conversationId := Some (lit "conv-1") |}.

Definition emptyIdProps : Props :=
  {| disabled := false; placeholder := None;
     clearOnSend := None; conversationId := Some [] |}.

Definition disabledProps : Props :=
  {| disabled := true; placeholder := None;
     clearOnSend := Some true; conversationId := None |}.

Definition docA : UploadedFile :=
  {| filename := lit "a.txt";
     enhanced_content :=
       {| summary := lit "a greeting"; original_text := lit "hello" |};
     display_summary := lit "a greeting";
     full_content := lit "hello" |}.

Definition withDocument : State :=
  {| question := lit "what is this?"; base64Image := None;
     isUploading := false; uploadError := None;
     uploadedFile := Some docA |}.

Definition draftOnly : State :=
  {| question := lit " hi "; base64Image := None;
     isUploading := false; uploadError := None;
     uploadedFile := None |}.

Definition imageOnly : State :=
  {| question := lit "  "; base64Image := Some (lit "data:image/png;base64,AAAA");
     isUploading := false; uploadError := Some (lit "old error");
     uploadedFile := None |}.

Definition draftAndImage : State :=
  {| question := lit "look"; base64Image := Some (lit "data:image/png;base64,AAAA");
     isUploading := false; uploadError := None;
     uploadedFile := None |}.

Definition draftAndEmptyImage : State :=
  {| question := lit "look"; base64Image := Some [];
     isUploading := false; uploadError := None;
     uploadedFile := None |}.

(** A run: an upload that fails, a draft, a send, an image, and a second
    upload. *)
Definition sampleRun : list event :=
  [FileInputChange (Some (FileHandle 1));
   ProcessSettled (Rejected ThrownOther);
   QuestionChange (Some (lit "hi"));
   SendClick;
   ResizeSettled (Fulfilled (lit "data:image/png;base64,AAAA"));
   FileInputChange (Some (FileHandle 2))].

Definition afterFailedUpload : State :=
  {| question := []; base64Image := Some (lit "data:image/png;base64,AAAA");
     isUploading := false;
     uploadError := Some (lit "Document processing failed");
     uploadedFile := None |}.

Definition secondUploadStarted : State :=
  {| question := []; base64Image := Some (lit "data:image/png;base64,AAAA");
     isUploading := true; uploadError := None; uploadedFile := None |}.

(** ** What is rendered *)

(** The icon inside the send button. *)
Inductive SendIcon : Type :=
| SendRegularDisabled      (* <SendRegular className=...Disabled /> *)
| SendImage.               (* <img src={Send} ... /> *)

(** The parts of the rendered tree that depend on props and state. *)
Record View : Type := {
  errorBanner : option jsstring;          (* uploadError && <div>...</div> *)
  textFieldValue : jsstring;              (* value={question} *)
  textFieldPlaceholder : option jsstring; (* placeholder={placeholder} *)
  fileLabelBackground : option jsstring;  (* style.backgroundColor *)
  imageInput : bool;                      (* is the image input rendered *)
  imagePreview : option jsstring;         (* base64Image && <img src=... /> *)
  sendIcon : SendIcon
}.

(** [x && <element using x>] for a [string | null]: the element when the
    string is truthy, nothing otherwise. *)
Definition whenTruthy (v : option jsstring) : option jsstring :=
  if truthy_opt_str v then v else None.

(** The [return (...)] of [QuestionInput.tsx]. *)
Definition render_QuestionInput (props : Props) (s : State) : View :=
  {| errorBanner := whenTruthy (uploadError s);
     textFieldValue := question s;
     textFieldPlaceholder := placeholder props;
     fileLabelBackground :=
       if truthy_obj (uploadedFile s) then Some (lit "#0078d4") else None;
     imageInput := true;
     imagePreview := whenTruthy (base64Image s);
     sendIcon :=
       if sendQuestionDisabled props s then SendRegularDisabled
       else SendImage |}.

(** The [return (...)] of the second revision: the image input and the
    preview are commented out. *)
Definition render_Part000 (props : Props) (s : State) : View :=
  {| errorBanner := whenTruthy (uploadError s);
     textFieldValue := question s;
     textFieldPlaceholder := placeholder props;
     fileLabelBackground :=
       if truthy_obj (uploadedFile s) then Some (lit "#0078d4")
       else Some (lit "#f3f2f1");
     imageInput := false;
     imagePreview := None;
     sendIcon :=
       if sendQuestionDisabled props s then SendRegularDisabled
       else SendImage |}.

(** ** Observations on effects and events *)

(** The events whose handlers can reach [sendQuestion]: a click on the
    button, a key on the button, a key in the text field.  Whether a key
    does run it depends on the key, see [runsSendQuestion]. *)
Definition isSendEvent (e : event) : bool :=
  match e with
  | SendClick | SendKeyDown _ | TextKeyDown _ => true
  | _ => false
  end.

(** The events at which [sendQuestion] is called: a click on the button,
    Enter or Space on the button, and in the text field Enter without Shift
    and outside a composition. *)
Definition runsSendQuestion (e : event) : bool :=
  match e with
  | SendClick => true
  | SendKeyDown ev =>
      str_eqb (key ev) (lit "Enter") || str_eqb (key ev) (lit " ")
  | TextKeyDown ev =>
      str_eqb (key ev) (lit "Enter")
      && negb (shiftKey ev)
      && negb (match isComposing ev with Some true => true | _ => false end)
  | _ => false
  end.

(** The events of the image input and of the resize it starts.  The second
    revision renders no image input, so they do not occur there. *)
Definition isImageEvent (e : event) : bool :=
  match e with
  | ImageInputChange _ | ResizeSettled _ => true
  | _ => false
  end.

(** A sequence of events of the second revision: none is an image event. *)
Definition noImageEvents (es : list event) : bool :=
  forallb (fun e => negb (isImageEvent e)) es.

(** The files handed to [processDocumentWithAI] by the effects of a
    handler. *)
Fixpoint processCalls (effs : list effect) : list File :=
  match effs with
  | [] => []
  | ProcessDocumentWithAI f :: r => f :: processCalls r
  | _ :: r => processCalls r
  end.

(** The arguments of the calls of [resizeImage] among the effects of a
    handler. *)
Fixpoint resizeCalls (effs : list effect) : list (File * N * N) :=
  match effs with
  | [] => []
  | ResizeImage f w h :: r => (f, w, h) :: resizeCalls r
  | _ :: r => resizeCalls r
  end.

(** The object [handleFileUpload] stores for a processed document. *)
Definition storedDocument (d : ProcessedDocument) : UploadedFile :=
  {| filename := pd_filename d;
     enhanced_content := pd_enhanced_content d;
     display_summary := summary (pd_enhanced_content d);
     full_content := original_text (pd_enhanced_content d) |}.

(** The text [sendQuestion] assembles around a document. *)
Definition withFile (f : UploadedFile) (draft : jsstring) : jsstring :=
  lit "File: " ++ filename f ++ LF ++ LF ++ full_content f
  ++ LF ++ LF ++ lit "User Question: " ++ draft.

(** The state after a sequence of events, each handled in the render the one
    before it left. *)
Definition runEvents (sendQuestion : Props -> State -> list effect)
  (props : Props) (s : State) (es : list event) : State :=
  fold_left (step sendQuestion props) es s.

(** ** More sample values *)

Definition enterKey : KeyboardEvent :=
  {| key := lit "Enter"; shiftKey := false; isComposing := None |}.

Definition shiftEnterKey : KeyboardEvent :=
  {| key := lit "Enter"; shiftKey := true; isComposing := Some false |}.

Definition composingEnterKey : KeyboardEvent :=
  {| key := lit "Enter"; shiftKey := false; isComposing := Some true |}.

Definition letterKey : KeyboardEvent :=
  {| key := lit "a"; shiftKey := false; isComposing := None |}.

Definition processedA : ProcessedDocument :=
  {| pd_filename := lit "a.txt";
     pd_enhanced_content :=
       {| summary := lit "a greeting"; original_text := lit "hello" |} |}.

Definition processedB : ProcessedDocument :=
  {| pd_filename := lit "b.md";
     pd_enhanced_content :=
       {| summary := lit "notes"; original_text := lit "# notes" |} |}.

Definition keepingProps : Props :=
  {| disabled := false; placeholder := Some (lit "Type a new question...");
     clearOnSend := Some false; conversationId := Some (lit "conv-1") |}.

(** * Properties *)

(** ** Strings *)




Example trim_keeps_inner_space :
  trim (lit "  what is  this? ") = lit "what is  this?".
Proof. reflexivity. Qed.

Example trim_blank : trim ([9; 32; 160; 10; 13; 8232; 65279]) = [].
Proof. reflexivity. Qed.

(** ** Effects and state *)

Lemma run_app (s : State) (a b : list effect) :
  run s (a ++ b) = run (run s a) b.
Proof. unfold run. apply fold_left_app. Qed.

Lemma onSendCalls_app (a b : list effect) :
  onSendCalls (a ++ b) = onSendCalls a ++ onSendCalls b.
Proof.
  induction a as [|e a IH]; simpl; [reflexivity|].
  destruct e; simpl; rewrite ?IH; reflexivity.
Qed.

(** The guard of [sendQuestion] is off exactly when the component is enabled
    and there is a draft that does not trim to nothing, or a document. *)
Lemma sendQuestionDisabled_false (props : Props) (s : State) :
  sendQuestionDisabled props s = false <->
  disabled props = false /\
  (trim (question s) <> [] \/ uploadedFile s <> None).
Proof.
  unfold sendQuestionDisabled.
  destruct (disabled props); simpl.
  - split; [discriminate | intros [H _]; discriminate].
  - destruct (trim (question s)) as [|c r]; simpl;
      destruct (uploadedFile s) as [f|]; simpl; split; intros H;
      try reflexivity; try discriminate;
      try (split; [reflexivity|]; (left; discriminate) || (right; discriminate)).
    destruct H as [_ [H|H]]; congruence.
Qed.

(** [dispatch] invokes [onSend] once and does nothing else. *)
Lemma dispatch_once (props : Props) (q : Content) :
  exists c, dispatch props q = match c with
                               | Call1 q' => [OnSend1 q']
                               | Call2 q' id => [OnSend2 q' id]
                               end
            /\ onSendCalls (dispatch props q) = [c] /\ payload c = q.
Proof.
  unfold dispatch.
  destruct (conversationId props) as [[|c id]|]; simpl.
  - exists (Call1 q). repeat split.
  - exists (Call2 q (c :: id)). repeat split.
  - exists (Call1 q). repeat split.
Qed.

Lemma run_dispatch (props : Props) (q : Content) (s : State) :
  run s (dispatch props q) = s.
Proof.
  unfold dispatch.
  destruct (conversationId props) as [[|c id]|]; reflexivity.
Qed.

(** ** Text assembly *)

(** C1.  With a document attached, the text [sendQuestion] assembles is
    "File: ", the filename, two newlines, the full text of the document, two
    newlines, "User Question: " and the draft as it is, untrimmed and
    possibly empty; and when the component is enabled this is the text the
    one dispatched payload carries, in both revisions. *)
Theorem sendQuestion_assembles_document_text
  (props : Props) (s : State) (f : UploadedFile) :
  uploadedFile s = Some f ->
  let assembled :=
    lit "File: " ++ filename f ++ LF ++ LF ++ full_content f
    ++ LF ++ LF ++ lit "User Question: " ++ question s in
  questionContent s = assembled
  /\ (disabled props = false ->
      map payloadText
        (map payload (onSendCalls (QuestionInput.sendQuestion props s)))
      = [assembled]
      /\ map payloadText
           (map payload (onSendCalls (Part000.sendQuestion props s)))
         = [assembled]).
Proof.
  intros Hf assembled.
  assert (Hq : questionContent s = assembled).
  { unfold questionContent. rewrite Hf. reflexivity. }
  split; [exact Hq|]. intros Hd.
  assert (Hg : sendQuestionDisabled props s = false).
  { apply sendQuestionDisabled_false. split; [exact Hd|].
    right. rewrite Hf. discriminate. }
  unfold QuestionInput.sendQuestion, Part000.sendQuestion. rewrite Hg.
  rewrite !onSendCalls_app.
  destruct (dispatch_once props (QuestionInput.questionTest s))
    as [c1 [_ [E1 P1]]].
  destruct (dispatch_once props (Part000.questionTest s))
    as [c2 [_ [E2 P2]]].
  rewrite E1, E2.
  split.
  - destruct (truthy_opt_bool (clearOnSend props)); simpl; rewrite P1;
      unfold QuestionInput.questionTest;
      destruct (base64Image s) as [[|x img]|]; simpl; rewrite Hq; reflexivity.
  - destruct (truthy_opt_bool (clearOnSend props)); simpl; rewrite P2;
      unfold Part000.questionTest; simpl; rewrite Hq; reflexivity.
Qed.

(** The example of the specification: filename "a.txt", full text "hello",
    draft "what is this?". *)
Lemma sendQuestion_assembles_document_text_example :
  questionContent withDocument
  = lit "File: a.txt" ++ LF ++ LF ++ lit "hello" ++ LF ++ LF
    ++ lit "User Question: what is this?"
  /\ map payloadText
       (map payload
          (onSendCalls (QuestionInput.sendQuestion enabledProps withDocument)))
     = [[70; 105; 108; 101; 58; 32; 97; 46; 116; 120; 116; 10; 10;
         104; 101; 108; 108; 111; 10; 10;
         85; 115; 101; 114; 32; 81; 117; 101; 115; 116; 105; 111; 110; 58; 32;
         119; 104; 97; 116; 32; 105; 115; 32; 116; 104; 105; 115; 63]].
Proof.
  destruct (sendQuestion_assembles_document_text
              enabledProps withDocument docA eq_refl) as [H1 H2].
  split.
  - exact H1.
  - exact (proj1 (H2 eq_refl)).
Defined.

(** ** Refusal *)

(** C2.  When the component is disabled, or the draft trims to the empty
    string and no document is attached, whatever the image, [sendQuestion]
    has no effect at all in either revision: [onSend] is not invoked and the
    state stays as it is. *)
Theorem sendQuestion_refused (props : Props) (s : State) :
  disabled props = true
  \/ (trim (question s) = [] /\ uploadedFile s = None) ->
  (QuestionInput.sendQuestion props s = []
   /\ onSendCalls (QuestionInput.sendQuestion props s) = []
   /\ run s (QuestionInput.sendQuestion props s) = s)
  /\ (Part000.sendQuestion props s = []
      /\ onSendCalls (Part000.sendQuestion props s) = []
      /\ run s (Part000.sendQuestion props s) = s).
Proof.
  intros H.
  assert (Hg : sendQuestionDisabled props s = true).
  { unfold sendQuestionDisabled.
    destruct H as [H | [Ht Hf]].
    - rewrite H. reflexivity.
    - rewrite Ht, Hf. simpl. apply orb_true_r. }
  unfold QuestionInput.sendQuestion, Part000.sendQuestion.
  rewrite Hg. repeat split.
Qed.

(** An image alone does not authorise sending. *)
Lemma sendQuestion_refused_image_only :
  (trim (question imageOnly) = [] /\ uploadedFile imageOnly = None)
  /\ onSendCalls (QuestionInput.sendQuestion enabledProps imageOnly) = []
  /\ run imageOnly (QuestionInput.sendQuestion enabledProps imageOnly)
     = imageOnly
  /\ run imageOnly (Part000.sendQuestion enabledProps imageOnly)
     = imageOnly.
Proof.
  assert (H : trim (question imageOnly) = [] /\ uploadedFile imageOnly = None)
    by (split; reflexivity).
  destruct (sendQuestion_refused enabledProps imageOnly (or_intror H))
    as [[_ [H1 H2]] [_ [_ H3]]].
  split; [exact H|]. split; [exact H1|]. split; [exact H2 | exact H3].
Defined.

(** A disabled component refuses even a draft with a document. *)
Example sendQuestion_disabled_with_document :
  QuestionInput.sendQuestion disabledProps withDocument = []
  /\ Part000.sendQuestion disabledProps withDocument = [].
Proof. split; reflexivity. Qed.

(** ** Payload shape *)

(** What [sendQuestion] hands to [onSend] when the guard lets it through. *)
Lemma sendQuestion_calls (props : Props) (s : State) :
  sendQuestionDisabled props s = false ->
  onSendCalls (QuestionInput.sendQuestion props s)
  = onSendCalls (dispatch props (QuestionInput.questionTest s))
  /\ onSendCalls (Part000.sendQuestion props s)
     = onSendCalls (dispatch props (Part000.questionTest s)).
Proof.
  intros Hg.
  unfold QuestionInput.sendQuestion, Part000.sendQuestion. rewrite Hg.
  rewrite !onSendCalls_app.
  destruct (truthy_opt_bool (clearOnSend props)); simpl;
    rewrite !app_nil_r; split; reflexivity.
Qed.

Lemma sendQuestion_payloads (props : Props) (s : State) :
  sendQuestionDisabled props s = false ->
  map payload (onSendCalls (QuestionInput.sendQuestion props s))
  = [QuestionInput.questionTest s]
  /\ map payload (onSendCalls (Part000.sendQuestion props s))
     = [Part000.questionTest s].
Proof.
  intros Hg. destruct (sendQuestion_calls props s Hg) as [E1 E2].
  rewrite E1, E2.
  destruct (dispatch_once props (QuestionInput.questionTest s))
    as [c1 [_ [K1 P1]]].
  destruct (dispatch_once props (Part000.questionTest s))
    as [c2 [_ [K2 P2]]].
  rewrite K1, K2. simpl. rewrite P1, P2. split; reflexivity.
Qed.

(** In the second revision a send leaves the image hook alone. *)
Lemma Part000_sendQuestion_keeps_image (props : Props) (s : State) :
  base64Image (run s (Part000.sendQuestion props s)) = base64Image s.
Proof.
  unfold Part000.sendQuestion.
  destruct (sendQuestionDisabled props s); [reflexivity|].
  rewrite run_app, run_dispatch.
  destruct (truthy_opt_bool (clearOnSend props)); reflexivity.
Qed.

Lemma Part000_step_keeps_image (props : Props) (s : State) (e : event) :
  isImageEvent e = false ->
  base64Image (step Part000.sendQuestion props s e) = base64Image s.
Proof.
  intros He. unfold step, handle.
  destruct e as [v | ev | | ev | [f|] | [d|err] | f | r];
    try discriminate; try reflexivity.
  - unfold onEnterPress.
    destruct (str_eqb (key ev) (lit "Enter") && negb (shiftKey ev)
              && negb match isComposing ev with
                      | Some true => true | _ => false end);
      [|reflexivity].
    apply (Part000_sendQuestion_keeps_image props s).
  - apply Part000_sendQuestion_keeps_image.
  - unfold onSendKeyDown.
    destruct (str_eqb (key ev) (lit "Enter") || str_eqb (key ev) (lit " "));
      [|reflexivity].
    apply Part000_sendQuestion_keeps_image.
Qed.

(** The second revision renders no image input: from any state without an
    image, and so from the mounted one, no sequence of its events stores
    one. *)
Lemma Part000_keeps_no_image (props : Props) (es : list event) :
  noImageEvents es = true ->
  forall s, base64Image s = None ->
            base64Image (runEvents Part000.sendQuestion props s es) = None.
Proof.
  unfold runEvents, noImageEvents.
  induction es as [|e r IH]; simpl; intros H s Hs.
  - exact Hs.
  - apply andb_true_iff in H. destruct H as [He Hr].
    apply (IH Hr).
    rewrite Part000_step_keeps_image; [exact Hs|].
    destruct (isImageEvent e); [discriminate | reflexivity].
Qed.

(** C3.  When send is permitted and an image is attached, that is, when
    [base64Image] holds a non-empty encoded string, the test the component
    itself makes for the payload and for the preview, [sendQuestion]
    dispatches the text part carrying the assembled text followed by the
    image part carrying the encoded image; with no image attached it
    dispatches the assembled text alone, a plain string.  The second
    revision renders no image input: no state it reaches from the mounted
    one holds an image, and what it dispatches is the assembled text
    alone. *)
Theorem sendQuestion_payload_shape
  (props : Props) (s : State) (es : list event) :
  sendQuestionDisabled props s = false ->
  (forall image, base64Image s = Some image -> image <> [] ->
     map payload (onSendCalls (QuestionInput.sendQuestion props s))
     = [twoParts (questionContent s) image])
  /\ (base64Image s = None \/ base64Image s = Some [] ->
      map payload (onSendCalls (QuestionInput.sendQuestion props s))
      = [ContentString (questionContent s)])
  /\ (noImageEvents es = true ->
      s = runEvents Part000.sendQuestion props initial es ->
      base64Image s = None
      /\ map payload (onSendCalls (Part000.sendQuestion props s))
         = [ContentString (questionContent s)]).
Proof.
  intros Hg. destruct (sendQuestion_payloads props s Hg) as [E1 E2].
  rewrite E1, E2. unfold QuestionInput.questionTest, Part000.questionTest.
  split; [|split].
  - intros image Hi Hne. rewrite Hi.
    destruct image as [|c r]; [contradiction|]. reflexivity.
  - intros [Hi | Hi]; rewrite Hi; reflexivity.
  - intros Hes Hs. split; [|reflexivity].
    rewrite Hs. apply Part000_keeps_no_image; [exact Hes | reflexivity].
Qed.

Lemma sendQuestion_payload_shape_example :
  map payload (onSendCalls (QuestionInput.sendQuestion enabledProps draftAndImage))
  = [ContentParts
       {| tp_type := lit "text"; text := lit "look" |}
       {| ip_type := lit "image_url";
          image_url := {| url := lit "data:image/png;base64,AAAA" |} |}]
  /\ map payload (onSendCalls (QuestionInput.sendQuestion enabledProps draftOnly))
     = [ContentString (lit " hi ")]
  /\ (base64Image draftOnly = None
      /\ map payload (onSendCalls (Part000.sendQuestion enabledProps draftOnly))
         = [ContentString (lit " hi ")]).
Proof.
  split; [|split].
  - apply (proj1 (sendQuestion_payload_shape enabledProps draftAndImage []
                    eq_refl) (lit "data:image/png;base64,AAAA") eq_refl).
    discriminate.
  - apply (proj1 (proj2 (sendQuestion_payload_shape enabledProps draftOnly []
                           eq_refl))).
    left. reflexivity.
  - exact (proj2 (proj2 (sendQuestion_payload_shape enabledProps draftOnly
                           [QuestionChange (Some (lit " hi "))] eq_refl))
             eq_refl eq_refl).
Defined.

(** The empty string in [base64Image] is no image to the component: the
    payload is the plain text and no preview is rendered. *)
Example empty_string_is_no_image :
  onSendCalls (QuestionInput.sendQuestion enabledProps draftAndEmptyImage)
  = [Call1 (ContentString (lit "look"))]
  /\ imagePreview (render_QuestionInput enabledProps draftAndEmptyImage)
     = None.
Proof. split; reflexivity. Qed.

(** ** Dispatch *)

(** C4, as stated, fails: an identifier that was supplied but is the empty
    string is not passed on, [onSend] gets the payload alone. *)
Lemma sendQuestion_empty_id_one_argument :
  sendQuestionDisabled emptyIdProps draftOnly = false
  /\ conversationId emptyIdProps = Some []
  /\ map arity (onSendCalls (QuestionInput.sendQuestion emptyIdProps draftOnly))
     = [1%nat]
  /\ map arity (onSendCalls (Part000.sendQuestion emptyIdProps draftOnly))
     = [1%nat].
Proof. repeat split. Qed.

(** C4, amended.  When send is permitted and a non-empty conversation
    identifier was supplied, [onSend] is invoked once with two arguments,
    the payload and the identifier; when no identifier was supplied, it is
    invoked once with the payload alone.  In both revisions. *)
Theorem sendQuestion_dispatch_arity (props : Props) (s : State) :
  sendQuestionDisabled props s = false ->
  (forall id, conversationId props = Some id -> id <> [] ->
     onSendCalls (QuestionInput.sendQuestion props s)
     = [Call2 (QuestionInput.questionTest s) id]
     /\ onSendCalls (Part000.sendQuestion props s)
        = [Call2 (Part000.questionTest s) id])
  /\ (conversationId props = None ->
      onSendCalls (QuestionInput.sendQuestion props s)
      = [Call1 (QuestionInput.questionTest s)]
      /\ onSendCalls (Part000.sendQuestion props s)
         = [Call1 (Part000.questionTest s)]).
Proof.
  intros Hg. destruct (sendQuestion_calls props s Hg) as [E1 E2].
  rewrite E1, E2. unfold dispatch. split.
  - intros id Hid Hne. rewrite Hid.
    destruct id as [|c r]; [contradiction|]. split; reflexivity.
  - intros Hid. rewrite Hid. split; reflexivity.
Qed.

Lemma sendQuestion_dispatch_arity_example :
  onSendCalls (QuestionInput.sendQuestion clearingProps withDocument)
  = [Call2 (ContentString (questionContent withDocument)) (lit "conv-1")]
  /\ map arity (onSendCalls (Part000.sendQuestion enabledProps draftOnly))
     = [1%nat].
Proof.
  split.
  - apply (proj1 (sendQuestion_dispatch_arity clearingProps withDocument
                    eq_refl) (lit "conv-1") eq_refl).
    discriminate.
  - rewrite (proj2 (proj2 (sendQuestion_dispatch_arity enabledProps draftOnly
                             eq_refl) eq_refl)).
    reflexivity.
Defined.

(** C9.  When send is permitted and the supplied conversation identifier is
    the empty string, [onSend] is invoked once with the payload alone, and
    the handler does exactly what it does when no identifier was supplied:
    the branch tests the truthiness of the identifier.  In both revisions. *)
Theorem sendQuestion_empty_id_dropped (props props' : Props) (s : State) :
  sendQuestionDisabled props s = false ->
  conversationId props = Some [] ->
  disabled props' = disabled props ->
  clearOnSend props' = clearOnSend props ->
  conversationId props' = None ->
  (onSendCalls (QuestionInput.sendQuestion props s)
   = [Call1 (QuestionInput.questionTest s)]
   /\ QuestionInput.sendQuestion props s
      = QuestionInput.sendQuestion props' s)
  /\ (onSendCalls (Part000.sendQuestion props s)
      = [Call1 (Part000.questionTest s)]
      /\ Part000.sendQuestion props s = Part000.sendQuestion props' s).
Proof.
  intros Hg Hid Hd Hc Hn.
  destruct (sendQuestion_calls props s Hg) as [E1 E2].
  rewrite E1, E2.
  unfold QuestionInput.sendQuestion, Part000.sendQuestion,
    sendQuestionDisabled, dispatch.
  rewrite Hid, Hn, Hd, Hc. repeat split.
Qed.

Lemma sendQuestion_empty_id_dropped_example :
  onSendCalls (QuestionInput.sendQuestion emptyIdProps draftAndImage)
  = [Call1 (twoParts (lit "look") (lit "data:image/png;base64,AAAA"))]
  /\ Part000.sendQuestion emptyIdProps draftAndImage
     = Part000.sendQuestion enabledProps draftAndImage.
Proof.
  destruct (sendQuestion_empty_id_dropped emptyIdProps enabledProps
              draftAndImage eq_refl eq_refl eq_refl eq_refl eq_refl)
    as [[H1 _] [_ H2]].
  split; [exact H1 | exact H2].
Defined.

(** ** Clearing after a send *)

(** C5.  When send is permitted and [clearOnSend] is set, the handler that
    dispatches is the one that resets: its effects are the invocation of
    [onSend] followed by the setters, with no [await] in between, so the
    next render, and with it any read before new input, sees an empty draft
    and no document.  In both revisions; [QuestionInput.tsx] clears the
    image as well. *)
Theorem sendQuestion_clears_on_send (props : Props) (s : State) :
  sendQuestionDisabled props s = false ->
  clearOnSend props = Some true ->
  (QuestionInput.sendQuestion props s
   = dispatch props (QuestionInput.questionTest s)
     ++ [SetQuestion []; SetUploadedFile None; SetBase64Image None]
   /\ question (run s (QuestionInput.sendQuestion props s)) = []
   /\ uploadedFile (run s (QuestionInput.sendQuestion props s)) = None
   /\ question (step QuestionInput.sendQuestion props s SendClick) = []
   /\ uploadedFile (step QuestionInput.sendQuestion props s SendClick) = None)
  /\ (Part000.sendQuestion props s
      = dispatch props (Part000.questionTest s)
        ++ [SetQuestion []; SetUploadedFile None]
      /\ question (run s (Part000.sendQuestion props s)) = []
      /\ uploadedFile (run s (Part000.sendQuestion props s)) = None
      /\ question (step Part000.sendQuestion props s SendClick) = []
      /\ uploadedFile (step Part000.sendQuestion props s SendClick) = None).
Proof.
  intros Hg Hc. unfold step, handle.
  unfold QuestionInput.sendQuestion, Part000.sendQuestion.
  rewrite Hg, Hc. simpl truthy_opt_bool. cbv iota.
  rewrite !run_app, !run_dispatch. repeat split.
Qed.

Lemma sendQuestion_clears_on_send_example :
  question (run withDocument
              (QuestionInput.sendQuestion clearingProps withDocument)) = []
  /\ uploadedFile (run withDocument
                     (QuestionInput.sendQuestion clearingProps withDocument))
     = None
  /\ question (run withDocument
                 (Part000.sendQuestion clearingProps withDocument)) = []
  /\ uploadedFile (run withDocument
                     (Part000.sendQuestion clearingProps withDocument))
     = None.
Proof.
  destruct (sendQuestion_clears_on_send clearingProps withDocument
              eq_refl eq_refl) as [[_ [H1 [H2 _]]] [_ [H3 [H4 _]]]].
  split; [exact H1|]. split; [exact H2|]. split; [exact H3 | exact H4].
Defined.

(** Without [clearOnSend] a send leaves the state as it is. *)
Lemma sendQuestion_keeps_state (props : Props) (s : State) :
  truthy_opt_bool (clearOnSend props) = false ->
  run s (QuestionInput.sendQuestion props s) = s
  /\ run s (Part000.sendQuestion props s) = s.
Proof.
  intros Hc. unfold QuestionInput.sendQuestion, Part000.sendQuestion.
  rewrite Hc.
  destruct (sendQuestionDisabled props s); [split; reflexivity|].
  rewrite !app_nil_r, !run_dispatch. split; reflexivity.
Qed.

(** ** The draft goes out untrimmed *)

(** C6.  With a draft that does not trim to the empty string, no document
    and no image, what [sendQuestion] dispatches is the draft exactly as it
    is, white space at its ends included: every payload handed to [onSend]
    is that string, and [onSend] is invoked once with it, unless the
    component is disabled, which refuses every send.  In both revisions. *)
Theorem sendQuestion_sends_raw_draft (props : Props) (s : State) :
  trim (question s) <> [] ->
  uploadedFile s = None ->
  base64Image s = None ->
  (map payload (onSendCalls (QuestionInput.sendQuestion props s))
   = (if disabled props then [] else [ContentString (question s)])
   /\ forall c, In c (onSendCalls (QuestionInput.sendQuestion props s)) ->
                payload c = ContentString (question s))
  /\ (map payload (onSendCalls (Part000.sendQuestion props s))
      = (if disabled props then [] else [ContentString (question s)])
      /\ forall c, In c (onSendCalls (Part000.sendQuestion props s)) ->
                   payload c = ContentString (question s)).
Proof.
  intros Ht Hf Hi.
  assert (Hq : QuestionInput.questionTest s = ContentString (question s)).
  { unfold QuestionInput.questionTest, questionContent.
    rewrite Hi, Hf. reflexivity. }
  assert (Hq' : Part000.questionTest s = ContentString (question s)).
  { unfold Part000.questionTest, questionContent. rewrite Hf. reflexivity. }
  assert (Hm : forall l, (forall c, In c l ->
                 In (payload c) (map payload l))).
  { intros l c Hc. apply in_map. exact Hc. }
  destruct (disabled props) eqn:Hd.
  - assert (Hg : sendQuestionDisabled props s = true).
    { unfold sendQuestionDisabled. rewrite Hd. reflexivity. }
    unfold QuestionInput.sendQuestion, Part000.sendQuestion. rewrite Hg.
    simpl. repeat split; intros c [].
  - assert (Hg : sendQuestionDisabled props s = false).
    { apply sendQuestionDisabled_false. split; [exact Hd | left; exact Ht]. }
    destruct (sendQuestion_payloads props s Hg) as [E1 E2].
    rewrite Hq in E1. rewrite Hq' in E2.
    repeat split; try assumption; intros c Hc; apply Hm in Hc.
    + rewrite E1 in Hc. destruct Hc as [<- | []]. reflexivity.
    + rewrite E2 in Hc. destruct Hc as [<- | []]. reflexivity.
Qed.

Lemma sendQuestion_sends_raw_draft_example :
  map payload (onSendCalls (QuestionInput.sendQuestion enabledProps draftOnly))
  = [ContentString [32; 104; 105; 32]]
  /\ map payload (onSendCalls (Part000.sendQuestion enabledProps draftOnly))
     = [ContentString [32; 104; 105; 32]].
Proof.
  assert (Ht : trim (question draftOnly) <> []) by discriminate.
  destruct (sendQuestion_sends_raw_draft enabledProps draftOnly
              Ht eq_refl eq_refl) as [[H1 _] [H2 _]].
  split; [exact H1 | exact H2].
Defined.

(** ** The two revisions *)

(** C10.  With no image stored, the two revisions of [sendQuestion] invoke
    [onSend] with the same arguments and leave the same state behind,
    [clearOnSend] or not. *)
Theorem sendQuestion_revisions_agree (props : Props) (s : State) :
  base64Image s = None ->
  onSendCalls (QuestionInput.sendQuestion props s)
  = onSendCalls (Part000.sendQuestion props s)
  /\ run s (QuestionInput.sendQuestion props s)
     = run s (Part000.sendQuestion props s).
Proof.
  intros Hi.
  assert (Hq : QuestionInput.questionTest s = Part000.questionTest s).
  { unfold QuestionInput.questionTest, Part000.questionTest.
    rewrite Hi. reflexivity. }
  unfold QuestionInput.sendQuestion, Part000.sendQuestion. rewrite Hq.
  destruct (sendQuestionDisabled props s); [split; reflexivity|].
  rewrite !onSendCalls_app, !run_app, !run_dispatch.
  destruct (truthy_opt_bool (clearOnSend props)); simpl.
  - split; [reflexivity|]. unfold run. simpl. unfold apply. simpl.
    rewrite Hi. reflexivity.
  - split; reflexivity.
Qed.

Lemma sendQuestion_revisions_agree_example :
  onSendCalls (QuestionInput.sendQuestion clearingProps withDocument)
  = onSendCalls (Part000.sendQuestion clearingProps withDocument)
  /\ run withDocument (QuestionInput.sendQuestion clearingProps withDocument)
     = run withDocument (Part000.sendQuestion clearingProps withDocument).
Proof.
  exact (sendQuestion_revisions_agree clearingProps withDocument eq_refl).
Defined.

(** With an image stored the revisions do differ: in the payload, and under
    [clearOnSend] in the state they leave. *)
Lemma sendQuestion_revisions_differ_with_image :
  onSendCalls (QuestionInput.sendQuestion clearingProps draftAndImage)
  <> onSendCalls (Part000.sendQuestion clearingProps draftAndImage)
  /\ base64Image
       (run draftAndImage
          (QuestionInput.sendQuestion clearingProps draftAndImage)) = None
  /\ base64Image
       (run draftAndImage
          (Part000.sendQuestion clearingProps draftAndImage))
     = Some (lit "data:image/png;base64,AAAA").
Proof. repeat split. discriminate. Qed.

(** ** Document upload *)

(** C7.  A call of [handleFileUpload] whose processing fails stores the
    message of the failure when it is an [Error], the fixed string
    "Document processing failed" when it is anything else, ends with
    [isUploading] false and leaves [uploadedFile] as it was before the call.
    The part of the handler that runs on the failure does not touch
    [uploadedFile] either, whatever happened since the call began. *)
Theorem handleFileUpload_failure
  (s later : State) (file : File) (message : jsstring) (error : thrown) :
  uploadError
    (run s (handleFileUpload (Some file) (Rejected (ThrownError message))))
  = Some message
  /\ uploadError
       (run s (handleFileUpload (Some file) (Rejected ThrownOther)))
     = Some (lit "Document processing failed")
  /\ isUploading (run s (handleFileUpload (Some file) (Rejected error)))
     = false
  /\ uploadedFile (run s (handleFileUpload (Some file) (Rejected error)))
     = uploadedFile s
  /\ uploadedFile (run later (handleFileUpload_resume (Rejected error)))
     = uploadedFile later
  /\ isUploading (run later (handleFileUpload_resume (Rejected error)))
     = false
  /\ uploadError (run later (handleFileUpload_resume (Rejected error)))
     = Some (uploadErrorMessage error).
Proof. repeat split. Qed.

(** A failure after an earlier success keeps the earlier document. *)
Example handleFileUpload_failure_keeps_document :
  run withDocument
    (handleFileUpload (Some (FileHandle 2)) (Rejected (ThrownError (lit "too large"))))
  = {| question := lit "what is this?"; base64Image := None;
       isUploading := false; uploadError := Some (lit "too large");
       uploadedFile := Some docA |}.
Proof. reflexivity. Qed.

(** A success stores the document; the error of an earlier attempt was
    cleared when this one began. *)
Example handleFileUpload_success :
  run imageOnly
    (handleFileUpload (Some (FileHandle 1))
       (Fulfilled {| pd_filename := lit "a.txt";
                     pd_enhanced_content :=
                       {| summary := lit "a greeting";
                          original_text := lit "hello" |} |}))
  = {| question := lit "  ";
       base64Image := Some (lit "data:image/png;base64,AAAA");
       isUploading := false; uploadError := None;
       uploadedFile := Some docA |}.
Proof. reflexivity. Qed.

(** ** The upload error along a run *)

Lemma run_keeps_uploadError (effs : list effect) :
  forallb keepsUploadError effs = true ->
  forall s, uploadError (run s effs) = uploadError s.
Proof.
  unfold run. induction effs as [|e r IH]; simpl; intros H s.
  - reflexivity.
  - apply andb_true_iff in H. destruct H as [He Hr].
    rewrite (IH Hr). destruct e; simpl; try reflexivity; discriminate.
Qed.

Lemma dispatch_keeps_uploadError (props : Props) (q : Content) :
  forallb keepsUploadError (dispatch props q) = true.
Proof.
  unfold dispatch.
  destruct (conversationId props) as [[|c r]|]; reflexivity.
Qed.

Lemma QuestionInput_sendQuestion_keeps_uploadError (props : Props) (s : State) :
  forallb keepsUploadError (QuestionInput.sendQuestion props s) = true.
Proof.
  unfold QuestionInput.sendQuestion.
  destruct (sendQuestionDisabled props s); [reflexivity|].
  rewrite forallb_app, dispatch_keeps_uploadError.
  destruct (truthy_opt_bool (clearOnSend props)); reflexivity.
Qed.

Lemma Part000_sendQuestion_keeps_uploadError (props : Props) (s : State) :
  forallb keepsUploadError (Part000.sendQuestion props s) = true.
Proof.
  unfold Part000.sendQuestion.
  destruct (sendQuestionDisabled props s); [reflexivity|].
  rewrite forallb_app, dispatch_keeps_uploadError.
  destruct (truthy_opt_bool (clearOnSend props)); reflexivity.
Qed.

Section UploadErrorInvariant.

Variable sendQuestion : Props -> State -> list effect.
Hypothesis sendQuestion_keeps :
  forall props s, forallb keepsUploadError (sendQuestion props s) = true.

Variable props : Props.

(** One step: if the error was set and is cleared, the step is the start
    of an upload. *)
Lemma step_clears_uploadError (s : State) (e : event) (msg : jsstring) :
  uploadError s = Some msg ->
  uploadError (step sendQuestion props s e) = None ->
  isUploadStart e = true.
Proof.
  intros Hs Hn. unfold step, handle in Hn.
  destruct e as [v | ev | | ev | [f|] | [d|err] | [f|] | [v|err]];
    try reflexivity; exfalso.
  - rewrite run_keeps_uploadError in Hn by reflexivity. congruence.
  - unfold onEnterPress in Hn.
    destruct (str_eqb (key ev) (lit "Enter") && negb (shiftKey ev)
              && negb match isComposing ev with
                      | Some true => true | _ => false end).
    + rewrite run_keeps_uploadError in Hn
        by (simpl; apply sendQuestion_keeps). congruence.
    + simpl in Hn. congruence.
  - rewrite run_keeps_uploadError in Hn by apply sendQuestion_keeps.
    congruence.
  - unfold onSendKeyDown in Hn.
    destruct (str_eqb (key ev) (lit "Enter") || str_eqb (key ev) (lit " ")).
    + rewrite run_keeps_uploadError in Hn by apply sendQuestion_keeps.
      congruence.
    + simpl in Hn. congruence.
  - simpl in Hn. congruence.
  - simpl in Hn. congruence.
  - simpl in Hn. discriminate.
  - simpl in Hn. congruence.
  - simpl in Hn. congruence.
  - simpl in Hn. congruence.
  - simpl in Hn. congruence.
Qed.

(** Along a run: the [i]-th event takes the [i]-th state of the run to the
    next one. *)
Lemma trace_step (es : list event) :
  forall (s : State) (i : nat) (e : event) (before after : State),
    nth_error es i = Some e ->
    nth_error (s :: trace sendQuestion props s es) i = Some before ->
    nth_error (trace sendQuestion props s es) i = Some after ->
    after = step sendQuestion props before e.
Proof.
  induction es as [|e0 r IH]; intros s i e before after He Hb Ha.
  - destruct i; discriminate.
  - destruct i as [|i]; simpl in *.
    + congruence.
    + eapply IH; eassumption.
Qed.

Lemma run_clears_uploadError (s : State) (es : list event) (i : nat)
  (e : event) (before after : State) :
  nth_error es i = Some e ->
  nth_error (s :: trace sendQuestion props s es) i = Some before ->
  nth_error (trace sendQuestion props s es) i = Some after ->
  uploadError before <> None ->
  uploadError after = None ->
  isUploadStart e = true.
Proof.
  intros He Hb Ha Hset Hclr.
  rewrite (trace_step es s i e before after He Hb Ha) in Hclr.
  destruct (uploadError before) as [msg|] eqn:Hm; [|contradiction].
  exact (step_clears_uploadError before e msg Hm Hclr).
Qed.

End UploadErrorInvariant.

(** C8.  A call of [handleFileUpload] with a file sets [isUploading] and
    clears [uploadError] and only then invokes [processDocumentWithAI]; and
    along every sequence of events of the component, in either revision,
    [uploadError] goes from set to cleared only at an event that starts an
    upload: sending, attaching an image, editing the draft and the
    completions of uploads and resizes never clear it. *)
Theorem uploadError_cleared_only_at_upload_start
  (props : Props) (s : State) (es : list event) (i : nat) (e : event)
  (before after : State) (file : File) :
  (handleFileUpload_begin (Some file)
   = [SetIsUploading true; SetUploadError None; ProcessDocumentWithAI file]
   /\ isUploading (run s (handleFileUpload_begin (Some file))) = true
   /\ uploadError (run s (handleFileUpload_begin (Some file))) = None)
  /\ (nth_error es i = Some e ->
      nth_error (s :: trace QuestionInput.sendQuestion props s es) i
      = Some before ->
      nth_error (trace QuestionInput.sendQuestion props s es) i
      = Some after ->
      uploadError before <> None ->
      uploadError after = None ->
      isUploadStart e = true)
  /\ (nth_error es i = Some e ->
      nth_error (s :: trace Part000.sendQuestion props s es) i
      = Some before ->
      nth_error (trace Part000.sendQuestion props s es) i = Some after ->
      uploadError before <> None ->
      uploadError after = None ->
      isUploadStart e = true).
Proof.
  split; [repeat split|]. split.
  - apply (run_clears_uploadError QuestionInput.sendQuestion
             QuestionInput_sendQuestion_keeps_uploadError).
  - apply (run_clears_uploadError Part000.sendQuestion
             Part000_sendQuestion_keeps_uploadError).
Qed.

Lemma uploadError_cleared_only_at_upload_start_example :
  nth_error (initial :: trace QuestionInput.sendQuestion clearingProps
                          initial sampleRun) 5
  = Some afterFailedUpload
  /\ nth_error (trace QuestionInput.sendQuestion clearingProps
                  initial sampleRun) 5
     = Some secondUploadStarted
  /\ uploadError afterFailedUpload = Some (lit "Document processing failed")
  /\ uploadError secondUploadStarted = None
  /\ isUploadStart (FileInputChange (Some (FileHandle 2))) = true.
Proof.
  assert (Hset : uploadError afterFailedUpload <> None) by discriminate.
  do 4 (split; [reflexivity|]).
  exact (proj1 (proj2 (uploadError_cleared_only_at_upload_start
                         clearingProps initial sampleRun 5
                         (FileInputChange (Some (FileHandle 2)))
                         afterFailedUpload secondUploadStarted
                         (FileHandle 2)))
           eq_refl eq_refl eq_refl Hset eq_refl).
Defined.

(** * Further properties of the handlers *)

(** ** Keys *)

Lemma str_eqb_refl (a : jsstring) : str_eqb a a = true.
Proof.
  induction a as [|x a IH]; simpl; [reflexivity|].
  rewrite N.eqb_refl. exact IH.
Qed.

Lemma str_eqb_eq (a b : jsstring) : str_eqb a b = true <-> a = b.
Proof.
  split; [|intros <-; apply str_eqb_refl].
  revert b. induction a as [|x a IH]; intros [|y b] H; simpl in H;
    try reflexivity; try discriminate.
  apply andb_true_iff in H. destruct H as [Hx Hr].
  apply N.eqb_eq in Hx. rewrite Hx, (IH b Hr). reflexivity.
Qed.

Lemma str_eqb_neq (a b : jsstring) : str_eqb a b = false <-> a <> b.
Proof.
  split.
  - intros H E. apply str_eqb_eq in E. congruence.
  - intros H. destruct (str_eqb a b) eqn:E; [|reflexivity].
    apply str_eqb_eq in E. contradiction.
Qed.

Lemma run_PreventDefault (s : State) (effs : list effect) :
  run s (PreventDefault :: effs) = run s effs.
Proof. reflexivity. Qed.

(** X1.  Enter in the text field, without Shift and outside a composition,
    prevents the default action and then does what a click on the send
    button does: the same invocations of [onSend], the same next state.
    For any [sendQuestion], hence in both revisions. *)
Theorem onEnterPress_sends_like_click
  (sendQuestion : Props -> State -> list effect)
  (props : Props) (ev : KeyboardEvent) (s : State) :
  key ev = lit "Enter" ->
  shiftKey ev = false ->
  isComposing ev <> Some true ->
  onEnterPress sendQuestion props ev s = PreventDefault :: sendQuestion props s
  /\ onSendCalls (handle sendQuestion props s (TextKeyDown ev))
     = onSendCalls (handle sendQuestion props s SendClick)
  /\ step sendQuestion props s (TextKeyDown ev)
     = step sendQuestion props s SendClick.
Proof.
  intros Hk Hs Hc.
  assert (E : onEnterPress sendQuestion props ev s
              = PreventDefault :: sendQuestion props s).
  { unfold onEnterPress. rewrite Hk, str_eqb_refl, Hs.
    destruct (isComposing ev) as [[|]|]; try reflexivity.
    exfalso. apply Hc. reflexivity. }
  split; [exact E|]. unfold step, handle. rewrite E. split; reflexivity.
Qed.

Lemma onEnterPress_sends_like_click_example :
  onSendCalls (handle QuestionInput.sendQuestion keepingProps withDocument
                 (TextKeyDown enterKey))
  = onSendCalls (handle QuestionInput.sendQuestion keepingProps withDocument
                   SendClick)
  /\ step Part000.sendQuestion clearingProps withDocument (TextKeyDown enterKey)
     = step Part000.sendQuestion clearingProps withDocument SendClick.
Proof.
  assert (Hc : isComposing enterKey <> Some true) by discriminate.
  split.
  - exact (proj1 (proj2 (onEnterPress_sends_like_click
                           QuestionInput.sendQuestion keepingProps enterKey
                           withDocument eq_refl eq_refl Hc))).
  - exact (proj2 (proj2 (onEnterPress_sends_like_click
                           Part000.sendQuestion clearingProps enterKey
                           withDocument eq_refl eq_refl Hc))).
Defined.

(** X2.  Any other key in the text field, Enter with Shift held, and Enter
    during a composition do nothing at all: the default action is not
    prevented, [sendQuestion] does not run, the state stays. *)
Theorem onEnterPress_ignored
  (sendQuestion : Props -> State -> list effect)
  (props : Props) (ev : KeyboardEvent) (s : State) :
  key ev <> lit "Enter" \/ shiftKey ev = true \/ isComposing ev = Some true ->
  onEnterPress sendQuestion props ev s = []
  /\ step sendQuestion props s (TextKeyDown ev) = s.
Proof.
  intros H.
  assert (E : onEnterPress sendQuestion props ev s = []).
  { unfold onEnterPress. destruct H as [H | [H | H]].
    - apply str_eqb_neq in H. rewrite H. reflexivity.
    - rewrite H, andb_false_r. reflexivity.
    - rewrite H, andb_false_r. reflexivity. }
  split; [exact E|]. unfold step, handle. rewrite E. reflexivity.
Qed.

Lemma onEnterPress_ignored_example :
  onEnterPress QuestionInput.sendQuestion enabledProps shiftEnterKey
    withDocument = []
  /\ onEnterPress Part000.sendQuestion enabledProps composingEnterKey
       withDocument = []
  /\ step QuestionInput.sendQuestion clearingProps withDocument
       (TextKeyDown letterKey) = withDocument.
Proof.
  assert (Hl : key letterKey <> lit "Enter") by discriminate.
  split; [|split].
  - exact (proj1 (onEnterPress_ignored QuestionInput.sendQuestion
                    enabledProps shiftEnterKey withDocument
                    (or_intror (or_introl eq_refl)))).
  - exact (proj1 (onEnterPress_ignored Part000.sendQuestion
                    enabledProps composingEnterKey withDocument
                    (or_intror (or_intror eq_refl)))).
  - exact (proj2 (onEnterPress_ignored QuestionInput.sendQuestion
                    clearingProps letterKey withDocument (or_introl Hl))).
Defined.

(** X3.  On the send button the key alone decides: Enter and Space run
    [sendQuestion] as it is, whatever Shift and the composition state are
    and without preventing the default action, and every other key does
    nothing.  So Shift+Enter sends from the button although it does not from
    the text field. *)
Theorem onSendKeyDown_key_alone
  (sendQuestion : Props -> State -> list effect)
  (props : Props) (ev : KeyboardEvent) (s : State) :
  (key ev = lit "Enter" \/ key ev = lit " " ->
   onSendKeyDown sendQuestion props ev s = sendQuestion props s
   /\ step sendQuestion props s (SendKeyDown ev)
      = step sendQuestion props s SendClick)
  /\ (key ev <> lit "Enter" -> key ev <> lit " " ->
      onSendKeyDown sendQuestion props ev s = []
      /\ step sendQuestion props s (SendKeyDown ev) = s).
Proof.
  unfold step, handle, onSendKeyDown. split.
  - intros [H | H]; rewrite H; simpl; split; reflexivity.
  - intros H1 H2. apply str_eqb_neq in H1, H2. rewrite H1, H2.
    split; reflexivity.
Qed.

Lemma onSendKeyDown_key_alone_example :
  onSendKeyDown QuestionInput.sendQuestion enabledProps shiftEnterKey draftOnly
  = [OnSend1 (ContentString (lit " hi "))]
  /\ onSendKeyDown Part000.sendQuestion enabledProps letterKey draftOnly = [].
Proof.
  assert (H1 : key letterKey <> lit "Enter") by discriminate.
  assert (H2 : key letterKey <> lit " ") by discriminate.
  split.
  - exact (proj1 (proj1 (onSendKeyDown_key_alone QuestionInput.sendQuestion
                           enabledProps shiftEnterKey draftOnly)
                    (or_introl eq_refl))).
  - exact (proj1 (proj2 (onSendKeyDown_key_alone Part000.sendQuestion
                           enabledProps letterKey draftOnly) H1 H2)).
Defined.

(** ** When a send goes out *)

(** How many times [sendQuestion] invokes [onSend]: once when the guard lets
    it through, never otherwise. *)
Lemma sendQuestion_call_count (props : Props) (s : State) :
  List.length (onSendCalls (QuestionInput.sendQuestion props s))
  = (if sendQuestionDisabled props s then 0 else 1)%nat
  /\ List.length (onSendCalls (Part000.sendQuestion props s))
     = (if sendQuestionDisabled props s then 0 else 1)%nat.
Proof.
  destruct (sendQuestionDisabled props s) eqn:Hg.
  - unfold QuestionInput.sendQuestion, Part000.sendQuestion. rewrite Hg.
    split; reflexivity.
  - destruct (sendQuestion_calls props s Hg) as [E1 E2]. rewrite E1, E2.
    destruct (dispatch_once props (QuestionInput.questionTest s))
      as [c1 [_ [K1 _]]].
    destruct (dispatch_once props (Part000.questionTest s))
      as [c2 [_ [K2 _]]].
    rewrite K1, K2. split; reflexivity.
Qed.

(** [sendQuestion] has no effect exactly when the guard is on. *)
Lemma sendQuestion_nil (props : Props) (s : State) :
  (QuestionInput.sendQuestion props s = []
   <-> sendQuestionDisabled props s = true)
  /\ (Part000.sendQuestion props s = []
      <-> sendQuestionDisabled props s = true).
Proof.
  destruct (sendQuestion_call_count props s) as [L1 L2].
  destruct (sendQuestionDisabled props s) eqn:Hg.
  - unfold QuestionInput.sendQuestion, Part000.sendQuestion. rewrite Hg.
    split; split; reflexivity.
  - split; split; intros H; try discriminate.
    + rewrite H in L1. discriminate.
    + rewrite H in L2. discriminate.
Qed.



(** X5.  No event makes the component invoke [onSend] more than once, and
    only the three events that run [sendQuestion] invoke it at all: editing
    the draft, choosing a file or an image and the completions of uploads
    and resizes never send.  In both revisions. *)
Theorem onSend_at_most_once_per_event (props : Props) (s : State) (e : event) :
  ((List.length (onSendCalls (handle QuestionInput.sendQuestion props s e))
    <= 1)%nat
   /\ (List.length (onSendCalls (handle Part000.sendQuestion props s e))
       <= 1)%nat)
  /\ (isSendEvent e = false ->
      onSendCalls (handle QuestionInput.sendQuestion props s e) = []
      /\ onSendCalls (handle Part000.sendQuestion props s e) = []).
Proof.
  destruct (sendQuestion_call_count props s) as [L1 L2].
  assert (B1 : (List.length
                  (onSendCalls (QuestionInput.sendQuestion props s)) <= 1)%nat).
  { rewrite L1. destruct (sendQuestionDisabled props s); lia. }
  assert (B2 : (List.length
                  (onSendCalls (Part000.sendQuestion props s)) <= 1)%nat).
  { rewrite L2. destruct (sendQuestionDisabled props s); lia. }
  destruct e as [v | ev | | ev | [f|] | [d|err] | [f|] | [v|err]];
    unfold handle, onEnterPress, onSendKeyDown; simpl isSendEvent.
  all: try (split; [split; simpl; lia | intros _; split; reflexivity]).
  - split; [|discriminate].
    destruct (str_eqb (key ev) (lit "Enter") && negb (shiftKey ev)
              && negb match isComposing ev with
                      | Some true => true | _ => false end);
      simpl; split; (assumption || lia).
  - split; [split; assumption | discriminate].
  - split; [|discriminate].
    destruct (str_eqb (key ev) (lit "Enter") || str_eqb (key ev) (lit " "));
      simpl; split; (assumption || lia).
Qed.

Lemma onSend_at_most_once_per_event_example :
  onSendCalls (handle QuestionInput.sendQuestion clearingProps withDocument
                 (ProcessSettled (Fulfilled processedB))) = []
  /\ onSendCalls (handle Part000.sendQuestion clearingProps withDocument
                    (QuestionChange (Some (lit "more")))) = [].
Proof.
  split.
  - exact (proj1 (proj2 (onSend_at_most_once_per_event clearingProps
                           withDocument
                           (ProcessSettled (Fulfilled processedB)))
                    eq_refl)).
  - exact (proj2 (proj2 (onSend_at_most_once_per_event clearingProps
                           withDocument
                           (QuestionChange (Some (lit "more"))))
                    eq_refl)).
Defined.

(** ** What is shown *)

(** X6.  The icon of the send button tells what a click does: the disabled
    icon is shown exactly when [sendQuestion] would do nothing, the send
    image exactly when it would invoke [onSend] once.  In both revisions. *)
Theorem sendIcon_tells_what_click_does (props : Props) (s : State) :
  ((sendIcon (render_QuestionInput props s) = SendRegularDisabled
    <-> QuestionInput.sendQuestion props s = [])
   /\ (sendIcon (render_QuestionInput props s) = SendImage
       <-> List.length (onSendCalls (QuestionInput.sendQuestion props s))
           = 1%nat))
  /\ ((sendIcon (render_Part000 props s) = SendRegularDisabled
       <-> Part000.sendQuestion props s = [])
      /\ (sendIcon (render_Part000 props s) = SendImage
          <-> List.length (onSendCalls (Part000.sendQuestion props s))
              = 1%nat)).
Proof.
  destruct (sendQuestion_call_count props s) as [L1 L2].
  destruct (sendQuestion_nil props s) as [N1 N2].
  unfold render_QuestionInput, render_Part000. simpl sendIcon.
  rewrite L1, L2.
  destruct (sendQuestionDisabled props s).
  - repeat split; try discriminate; intros _;
      [apply N1 | apply N2]; reflexivity.
  - repeat split; try discriminate; intros H;
      [apply N1 in H | apply N2 in H]; discriminate.
Qed.

(** X7.  What the user sees after a failed upload: the fixed text when the
    failure is not an [Error], the message when it is an [Error] with a
    non-empty one, and no banner at all when it is an [Error] whose message
    is the empty string, although [uploadError] is then set.  In both
    revisions. *)
Theorem errorBanner_after_failed_upload
  (props : Props) (s : State) (file : File) (c : N) (message : jsstring) :
  let failed error := run s (handleFileUpload (Some file) (Rejected error)) in
  (errorBanner (render_QuestionInput props (failed ThrownOther))
   = Some (lit "Document processing failed")
   /\ errorBanner (render_QuestionInput props
                     (failed (ThrownError (c :: message))))
      = Some (c :: message)
   /\ errorBanner (render_QuestionInput props (failed (ThrownError [])))
      = None)
  /\ (errorBanner (render_Part000 props (failed ThrownOther))
      = Some (lit "Document processing failed")
      /\ errorBanner (render_Part000 props
                        (failed (ThrownError (c :: message))))
         = Some (c :: message)
      /\ errorBanner (render_Part000 props (failed (ThrownError [])))
         = None)
  /\ uploadError (failed (ThrownError [])) = Some [].
Proof. repeat split. Qed.

(** ** Uploading, then sending *)

Lemma payloadText_questionTest (s : State) :
  payloadText (QuestionInput.questionTest s) = questionContent s
  /\ payloadText (Part000.questionTest s) = questionContent s.
Proof.
  unfold QuestionInput.questionTest, Part000.questionTest.
  destruct (base64Image s) as [[|c r]|]; split; reflexivity.
Qed.

(** [sendQuestion] reads the draft, the image and the document, nothing
    else. *)
Lemma sendQuestion_reads (props : Props) (s s' : State) :
  question s = question s' ->
  base64Image s = base64Image s' ->
  uploadedFile s = uploadedFile s' ->
  QuestionInput.sendQuestion props s = QuestionInput.sendQuestion props s'
  /\ Part000.sendQuestion props s = Part000.sendQuestion props s'.
Proof.
  intros Hq Hi Hf.
  unfold QuestionInput.sendQuestion, Part000.sendQuestion,
    QuestionInput.questionTest, Part000.questionTest,
    sendQuestionDisabled, questionContent.
  rewrite Hq, Hi, Hf. split; reflexivity.
Qed.

(** X8.  When an upload succeeds, in whatever state the component is by
    then, the document stored is made of the processed filename, summary and
    original text and the flag goes down, while the upload error, the draft
    and the image stay as they are: the error is null when the call ran with
    nothing in between, being cleared at its start, and is whatever a
    failure put there since otherwise.  With the component enabled the next
    send goes out, even with an empty draft, carrying "File: ", that
    filename, the original text and the draft.  In both revisions. *)
Theorem upload_then_send
  (props : Props) (s later : State) (file : File) (d : ProcessedDocument) :
  disabled props = false ->
  let done := run later (handleFileUpload_resume (Fulfilled d)) in
  let assembled :=
    lit "File: " ++ pd_filename d ++ LF ++ LF
    ++ original_text (pd_enhanced_content d)
    ++ LF ++ LF ++ lit "User Question: " ++ question later in
  (uploadedFile done = Some (storedDocument d)
   /\ isUploading done = false
   /\ uploadError done = uploadError later
   /\ question done = question later
   /\ base64Image done = base64Image later)
  /\ (run s (handleFileUpload (Some file) (Fulfilled d))
      = run (run s (handleFileUpload_begin (Some file)))
          (handleFileUpload_resume (Fulfilled d))
      /\ uploadError (run s (handleFileUpload (Some file) (Fulfilled d)))
         = None)
  /\ map payloadText
       (map payload (onSendCalls (QuestionInput.sendQuestion props done)))
     = [assembled]
  /\ map payloadText
       (map payload (onSendCalls (Part000.sendQuestion props done)))
     = [assembled].
Proof.
  intros Hd done assembled.
  assert (Hg : sendQuestionDisabled props done = false).
  { apply sendQuestionDisabled_false. split; [exact Hd|].
    right. discriminate. }
  destruct (sendQuestion_payloads props done Hg) as [E1 E2].
  destruct (payloadText_questionTest done) as [T1 T2].
  rewrite E1, E2. cbn [map]. rewrite T1. rewrite T2.
  split; [repeat split|]. split; [split; reflexivity|].
  split; reflexivity.
Qed.

Lemma upload_then_send_example :
  map payloadText
    (map payload
       (onSendCalls
          (QuestionInput.sendQuestion enabledProps
             (run afterFailedUpload
                (handleFileUpload_resume (Fulfilled processedA))))))
  = [lit "File: a.txt" ++ LF ++ LF ++ lit "hello" ++ LF ++ LF
     ++ lit "User Question: "]
  /\ uploadError (run afterFailedUpload
                    (handleFileUpload_resume (Fulfilled processedA)))
     = Some (lit "Document processing failed")
  /\ uploadError (run afterFailedUpload
                    (handleFileUpload (Some (FileHandle 1))
                       (Fulfilled processedA)))
     = None.
Proof.
  destruct (upload_then_send enabledProps afterFailedUpload afterFailedUpload
              (FileHandle 1) processedA eq_refl)
    as [[_ [_ [E _]]] [[_ N] [P _]]].
  split; [exact P|]. split; [exact E | exact N].
Defined.

(** X9.  Neither an upload in flight nor a failed one changes what a send
    does: [sendQuestion] is not held back while [isUploading] is set, and
    after a failure it dispatches as before the attempt, the document of an
    earlier upload included.  In both revisions. *)
Theorem sendQuestion_unaffected_by_upload_attempt
  (props : Props) (s : State) (file : File) (error : thrown) :
  (QuestionInput.sendQuestion props (run s (handleFileUpload_begin (Some file)))
   = QuestionInput.sendQuestion props s
   /\ QuestionInput.sendQuestion props
        (run s (handleFileUpload (Some file) (Rejected error)))
      = QuestionInput.sendQuestion props s)
  /\ (Part000.sendQuestion props (run s (handleFileUpload_begin (Some file)))
      = Part000.sendQuestion props s
      /\ Part000.sendQuestion props
           (run s (handleFileUpload (Some file) (Rejected error)))
         = Part000.sendQuestion props s).
Proof.
  assert (B := sendQuestion_reads props
                 (run s (handleFileUpload_begin (Some file))) s
                 eq_refl eq_refl eq_refl).
  assert (F := sendQuestion_reads props
                 (run s (handleFileUpload (Some file) (Rejected error))) s
                 eq_refl eq_refl eq_refl).
  destruct B as [B1 B2], F as [F1 F2]. repeat split; assumption.
Qed.

(** ** One send after another *)

(** The state a send leaves: the one it found, or, when it goes out under
    [clearOnSend], that one with the draft emptied and the document (and in
    [QuestionInput.tsx] the image) removed. *)
Lemma run_sendQuestion (props : Props) (s : State) :
  run s (QuestionInput.sendQuestion props s)
  = (if negb (sendQuestionDisabled props s)
        && truthy_opt_bool (clearOnSend props)
     then {| question := []; base64Image := None;
             isUploading := isUploading s; uploadError := uploadError s;
             uploadedFile := None |}
     else s)
  /\ run s (Part000.sendQuestion props s)
     = (if negb (sendQuestionDisabled props s)
           && truthy_opt_bool (clearOnSend props)
        then {| question := []; base64Image := base64Image s;
                isUploading := isUploading s; uploadError := uploadError s;
                uploadedFile := None |}
        else s).
Proof.
  unfold QuestionInput.sendQuestion, Part000.sendQuestion.
  destruct (sendQuestionDisabled props s); [split; reflexivity|].
  rewrite !run_app, !run_dispatch.
  destruct (truthy_opt_bool (clearOnSend props)); split; reflexivity.
Qed.

(** X10.  Under [clearOnSend] the send that follows a send does nothing:
    whatever the first one did, the second finds an empty draft and no
    document, or a disabled component, and so two clicks in a row invoke
    [onSend] at most once.  In both revisions. *)
Theorem second_send_refused_under_clearOnSend (props : Props) (s : State) :
  clearOnSend props = Some true ->
  (QuestionInput.sendQuestion props
     (step QuestionInput.sendQuestion props s SendClick) = []
   /\ runEvents QuestionInput.sendQuestion props s [SendClick; SendClick]
      = step QuestionInput.sendQuestion props s SendClick)
  /\ (Part000.sendQuestion props
        (step Part000.sendQuestion props s SendClick) = []
      /\ runEvents Part000.sendQuestion props s [SendClick; SendClick]
         = step Part000.sendQuestion props s SendClick).
Proof.
  intros Hc.
  assert (A : QuestionInput.sendQuestion props
                (step QuestionInput.sendQuestion props s SendClick) = []
              /\ Part000.sendQuestion props
                   (step Part000.sendQuestion props s SendClick) = []).
  { unfold step, handle.
    destruct (run_sendQuestion props s) as [R1 R2]. rewrite R1, R2, Hc.
    destruct (sendQuestion_nil props s) as [N1 N2].
    destruct (sendQuestionDisabled props s) eqn:Hg; simpl.
    - split; [apply N1 | apply N2]; reflexivity.
    - unfold QuestionInput.sendQuestion, Part000.sendQuestion,
        sendQuestionDisabled. simpl.
      rewrite orb_true_r. split; reflexivity. }
  destruct A as [A1 A2].
  unfold runEvents. simpl fold_left.
  split; split; try assumption.
  - unfold step at 1. unfold handle. rewrite A1. reflexivity.
  - unfold step at 1. unfold handle. rewrite A2. reflexivity.
Qed.

Lemma second_send_refused_under_clearOnSend_example :
  QuestionInput.sendQuestion clearingProps
    (step QuestionInput.sendQuestion clearingProps withDocument SendClick) = []
  /\ Part000.sendQuestion clearingProps
       (step Part000.sendQuestion clearingProps draftAndImage SendClick) = [].
Proof.
  split.
  - exact (proj1 (proj1 (second_send_refused_under_clearOnSend clearingProps
                           withDocument eq_refl))).
  - exact (proj1 (proj2 (second_send_refused_under_clearOnSend clearingProps
                           draftAndImage eq_refl))).
Defined.

(** X11.  Without [clearOnSend] (absent or false) a send changes no hook:
    the draft, the image and the document stay, and a second send does
    exactly what the first did.  In both revisions. *)
Theorem send_repeats_without_clearOnSend (props : Props) (s : State) :
  clearOnSend props = None \/ clearOnSend props = Some false ->
  (step QuestionInput.sendQuestion props s SendClick = s
   /\ QuestionInput.sendQuestion props
        (step QuestionInput.sendQuestion props s SendClick)
      = QuestionInput.sendQuestion props s)
  /\ (step Part000.sendQuestion props s SendClick = s
      /\ Part000.sendQuestion props
           (step Part000.sendQuestion props s SendClick)
         = Part000.sendQuestion props s).
Proof.
  intros Hc.
  assert (Ht : truthy_opt_bool (clearOnSend props) = false)
    by (destruct Hc as [-> | ->]; reflexivity).
  unfold step, handle.
  destruct (run_sendQuestion props s) as [R1 R2].
  rewrite Ht, andb_false_r in R1, R2. rewrite R1, R2.
  repeat split.
Qed.

Lemma send_repeats_without_clearOnSend_example :
  step QuestionInput.sendQuestion keepingProps draftAndImage SendClick
  = draftAndImage
  /\ step Part000.sendQuestion enabledProps withDocument SendClick
     = withDocument.
Proof.
  split.
  - exact (proj1 (proj1 (send_repeats_without_clearOnSend keepingProps
                           draftAndImage (or_intror eq_refl)))).
  - exact (proj1 (proj2 (send_repeats_without_clearOnSend enabledProps
                           withDocument (or_introl eq_refl)))).
Defined.

(** ** What removes a document or an image *)

Lemma truthy_clearOnSend (props : Props) :
  truthy_opt_bool (clearOnSend props) = true <-> clearOnSend props = Some true.
Proof.
  destruct (clearOnSend props) as [[|]|]; simpl; split; congruence.
Qed.

(** A send leaves the state as it is unless it goes out under
    [clearOnSend]. *)
Lemma run_sendQuestion_or (props : Props) (s : State) :
  (run s (QuestionInput.sendQuestion props s) = s
   \/ (clearOnSend props = Some true
       /\ sendQuestionDisabled props s = false))
  /\ (run s (Part000.sendQuestion props s) = s
      \/ (clearOnSend props = Some true
          /\ sendQuestionDisabled props s = false)).
Proof.
  destruct (run_sendQuestion props s) as [R1 R2]. rewrite R1, R2.
  destruct (sendQuestionDisabled props s); simpl;
    [split; left; reflexivity|].
  destruct (truthy_opt_bool (clearOnSend props)) eqn:Hc.
  - apply truthy_clearOnSend in Hc. split; right; split; auto.
  - split; left; reflexivity.
Qed.

Section ClearingSteps.

Variable sendQuestion : Props -> State -> list effect.
Hypothesis sendQuestion_run :
  forall props s,
    run s (sendQuestion props s) = s
    \/ (clearOnSend props = Some true
        /\ sendQuestionDisabled props s = false).

Variable props : Props.

(** An event that runs [sendQuestion] leaves the state as it is unless the
    send goes out under [clearOnSend]. *)
Lemma step_send_event (s : State) (e : event) :
  isSendEvent e = true ->
  step sendQuestion props s e = s
  \/ (clearOnSend props = Some true
      /\ sendQuestionDisabled props s = false).
Proof.
  intros He. unfold step, handle.
  destruct e as [v | ev | | ev | f | r | f | r]; try discriminate.
  - unfold onEnterPress.
    destruct (str_eqb (key ev) (lit "Enter") && negb (shiftKey ev)
              && negb match isComposing ev with
                      | Some true => true | _ => false end).
    + rewrite run_PreventDefault. apply sendQuestion_run.
    + left. reflexivity.
  - apply sendQuestion_run.
  - unfold onSendKeyDown.
    destruct (str_eqb (key ev) (lit "Enter") || str_eqb (key ev) (lit " ")).
    + apply sendQuestion_run.
    + left. reflexivity.
Qed.

(** The other events never remove a document or an image. *)
Lemma step_other_event (s : State) (e : event) :
  isSendEvent e = false ->
  (uploadedFile s <> None -> uploadedFile (step sendQuestion props s e) <> None)
  /\ (base64Image s <> None ->
      base64Image (step sendQuestion props s e) <> None).
Proof.
  intros He. unfold step, handle.
  destruct e as [v | ev | | ev | [f|] | [d|err] | [f|] | [v|err]];
    try discriminate; simpl; split; intros H; try exact H; discriminate.
Qed.

(** An event at which [sendQuestion] is called does what [sendQuestion]
    does, after [preventDefault] in the text field. *)
Lemma handle_runs (s : State) (e : event) :
  runsSendQuestion e = true ->
  handle sendQuestion props s e = sendQuestion props s
  \/ handle sendQuestion props s e = PreventDefault :: sendQuestion props s.
Proof.
  intros He. unfold handle.
  destruct e as [v | ev | | ev | f | r | f | r]; try discriminate.
  - right. unfold onEnterPress. simpl in He. rewrite He. reflexivity.
  - left. reflexivity.
  - left. unfold onSendKeyDown. simpl in He. rewrite He. reflexivity.
Qed.

(** A key that does not call [sendQuestion] does nothing. *)
Lemma handle_idle (s : State) (e : event) :
  isSendEvent e = true ->
  runsSendQuestion e = false ->
  handle sendQuestion props s e = [].
Proof.
  intros Hs He. unfold handle.
  destruct e as [v | ev | | ev | f | r | f | r]; try discriminate.
  - unfold onEnterPress. simpl in He. rewrite He. reflexivity.
  - unfold onSendKeyDown. simpl in He. rewrite He. reflexivity.
Qed.

Lemma step_removes (s : State) (e : event) :
  (uploadedFile s <> None /\ uploadedFile (step sendQuestion props s e) = None)
  \/ (base64Image s <> None
      /\ base64Image (step sendQuestion props s e) = None) ->
  runsSendQuestion e = true
  /\ (handle sendQuestion props s e = sendQuestion props s
      \/ handle sendQuestion props s e
         = PreventDefault :: sendQuestion props s)
  /\ clearOnSend props = Some true
  /\ sendQuestionDisabled props s = false.
Proof.
  intros H. destruct (isSendEvent e) eqn:Hs.
  - destruct (runsSendQuestion e) eqn:He.
    + split; [reflexivity|]. split; [exact (handle_runs s e He)|].
      destruct (step_send_event s e Hs) as [E | E]; [|exact E].
      rewrite E in H. destruct H as [[H1 H2] | [H1 H2]]; contradiction.
    + exfalso. unfold step in H. rewrite (handle_idle s e Hs He) in H.
      destruct H as [[H1 H2] | [H1 H2]]; contradiction.
  - exfalso. destruct (step_other_event s e Hs) as [F I].
    destruct H as [[H1 H2] | [H1 H2]];
      [apply F in H1 | apply I in H1]; contradiction.
Qed.

Lemma run_removes (s : State) (es : list event) (i : nat)
  (e : event) (before after : State) :
  nth_error es i = Some e ->
  nth_error (s :: trace sendQuestion props s es) i = Some before ->
  nth_error (trace sendQuestion props s es) i = Some after ->
  (uploadedFile before <> None /\ uploadedFile after = None)
  \/ (base64Image before <> None /\ base64Image after = None) ->
  runsSendQuestion e = true
  /\ (handle sendQuestion props before e = sendQuestion props before
      \/ handle sendQuestion props before e
         = PreventDefault :: sendQuestion props before)
  /\ clearOnSend props = Some true
  /\ sendQuestionDisabled props before = false.
Proof.
  intros He Hb Ha H.
  rewrite (trace_step sendQuestion props es s i e before after He Hb Ha) in H.
  exact (step_removes before e H).
Qed.

End ClearingSteps.

(** An event that calls a permitted [sendQuestion] invokes [onSend] once. *)
Lemma handle_sends_once (props : Props) (s : State) :
  sendQuestionDisabled props s = false ->
  (forall effs,
     effs = QuestionInput.sendQuestion props s
     \/ effs = PreventDefault :: QuestionInput.sendQuestion props s ->
     List.length (onSendCalls effs) = 1%nat)
  /\ (forall effs,
        effs = Part000.sendQuestion props s
        \/ effs = PreventDefault :: Part000.sendQuestion props s ->
        List.length (onSendCalls effs) = 1%nat).
Proof.
  intros Hg. destruct (sendQuestion_call_count props s) as [L1 L2].
  rewrite Hg in L1, L2.
  split; intros effs [-> | ->]; simpl; assumption.
Qed.

(** X12.  Along every sequence of events, in either revision, an attached
    document disappears only at an event at which [sendQuestion] is called
    (a click, Enter or Space on the button, Enter without Shift and outside
    a composition in the text field), with [clearOnSend] set and the send
    permitted, so that this very event invokes [onSend] once: no upload,
    failed or not, no edit, no other key and no image event removes it (a
    successful upload replaces it). *)
Theorem document_removed_only_by_clearing_send
  (props : Props) (s : State) (es : list event) (i : nat) (e : event)
  (before after : State) :
  nth_error es i = Some e ->
  uploadedFile before <> None ->
  uploadedFile after = None ->
  (nth_error (s :: trace QuestionInput.sendQuestion props s es) i
   = Some before ->
   nth_error (trace QuestionInput.sendQuestion props s es) i = Some after ->
   runsSendQuestion e = true
   /\ List.length
        (onSendCalls (handle QuestionInput.sendQuestion props before e))
      = 1%nat
   /\ clearOnSend props = Some true
   /\ sendQuestionDisabled props before = false)
  /\ (nth_error (s :: trace Part000.sendQuestion props s es) i
      = Some before ->
      nth_error (trace Part000.sendQuestion props s es) i = Some after ->
      runsSendQuestion e = true
      /\ List.length
           (onSendCalls (handle Part000.sendQuestion props before e))
         = 1%nat
      /\ clearOnSend props = Some true
      /\ sendQuestionDisabled props before = false).
Proof.
  intros He H1 H2. split; intros Hb Ha.
  - destruct (run_removes QuestionInput.sendQuestion
                (fun p x => proj1 (run_sendQuestion_or p x))
                props s es i e before after He Hb Ha
                (or_introl (conj H1 H2))) as [R [Hh [Hc Hg]]].
    repeat split; try assumption.
    exact (proj1 (handle_sends_once props before Hg) _ Hh).
  - destruct (run_removes Part000.sendQuestion
                (fun p x => proj2 (run_sendQuestion_or p x))
                props s es i e before after He Hb Ha
                (or_introl (conj H1 H2))) as [R [Hh [Hc Hg]]].
    repeat split; try assumption.
    exact (proj2 (handle_sends_once props before Hg) _ Hh).
Qed.

Lemma document_removed_only_by_clearing_send_example :
  runsSendQuestion (TextKeyDown enterKey) = true
  /\ List.length
       (onSendCalls (handle QuestionInput.sendQuestion clearingProps
                       withDocument (TextKeyDown enterKey)))
     = 1%nat
  /\ clearOnSend clearingProps = Some true
  /\ sendQuestionDisabled clearingProps withDocument = false.
Proof.
  assert (H1 : uploadedFile withDocument <> None) by discriminate.
  exact (proj1 (document_removed_only_by_clearing_send clearingProps
                  withDocument
                  [TextKeyDown enterKey; QuestionChange (Some (lit "next"))]
                  0 (TextKeyDown enterKey) withDocument initial
                  eq_refl H1 eq_refl)
           eq_refl eq_refl).
Defined.

(** X13.  In [QuestionInput.tsx], along every sequence of events, a stored
    image disappears only at an event at which [sendQuestion] is called,
    with [clearOnSend] set and the send permitted, so that this very event
    invokes [onSend] once.  The second revision, which renders no image
    input, never comes to hold an image: after any sequence of its events
    from the mounted state [base64Image] is null. *)
Theorem image_removed_only_by_clearing_send
  (props : Props) (s : State) (es : list event) (i : nat) (e : event)
  (before after : State) (es' : list event) :
  (nth_error es i = Some e ->
   base64Image before <> None ->
   base64Image after = None ->
   nth_error (s :: trace QuestionInput.sendQuestion props s es) i
   = Some before ->
   nth_error (trace QuestionInput.sendQuestion props s es) i = Some after ->
   runsSendQuestion e = true
   /\ List.length
        (onSendCalls (handle QuestionInput.sendQuestion props before e))
      = 1%nat
   /\ clearOnSend props = Some true
   /\ sendQuestionDisabled props before = false)
  /\ (noImageEvents es' = true ->
      base64Image (runEvents Part000.sendQuestion props initial es') = None).
Proof.
  split.
  - intros He H1 H2 Hb Ha.
    destruct (run_removes QuestionInput.sendQuestion
                (fun p x => proj1 (run_sendQuestion_or p x))
                props s es i e before after He Hb Ha
                (or_intror (conj H1 H2))) as [R [Hh [Hc Hg]]].
    repeat split; try assumption.
    exact (proj1 (handle_sends_once props before Hg) _ Hh).
  - intros Hes. apply Part000_keeps_no_image; [exact Hes | reflexivity].
Qed.

Lemma image_removed_only_by_clearing_send_example :
  (runsSendQuestion SendClick = true
   /\ List.length
        (onSendCalls (handle QuestionInput.sendQuestion clearingProps
                        draftAndImage SendClick))
      = 1%nat
   /\ clearOnSend clearingProps = Some true
   /\ sendQuestionDisabled clearingProps draftAndImage = false)
  /\ base64Image
       (runEvents Part000.sendQuestion clearingProps initial
          [QuestionChange (Some (lit "look")); SendClick]) = None.
Proof.
  assert (H1 : base64Image draftAndImage <> None) by discriminate.
  destruct (image_removed_only_by_clearing_send clearingProps draftAndImage
              [SendClick] 0 SendClick draftAndImage
              (step QuestionInput.sendQuestion clearingProps draftAndImage
                 SendClick)
              [QuestionChange (Some (lit "look")); SendClick])
    as [Q P].
  split.
  - exact (Q eq_refl H1 eq_refl eq_refl eq_refl).
  - exact (P eq_refl).
Defined.

(** ** Uploads that overlap *)

(** X14.  Two uploads started one after the other, before either settles:
    the first settlement lowers [isUploading] although the other upload is
    still pending; of two successes the one that settles last is the
    document kept, whichever was requested first; and a failure does not
    remove the document of the other upload, nor does a success remove the
    error of the other, whichever settles first.  For any [sendQuestion],
    hence in both revisions. *)
Theorem overlapping_uploads
  (sendQuestion : Props -> State -> list effect) (props : Props) (s : State)
  (f1 f2 : File) (d1 d2 : ProcessedDocument)
  (r : settled ProcessedDocument) (error : thrown) :
  let started :=
    runEvents sendQuestion props s
      [FileInputChange (Some f1); FileInputChange (Some f2)] in
  let after es := runEvents sendQuestion props started es in
  (isUploading started = true
   /\ isUploading (after [ProcessSettled r]) = false)
  /\ (uploadedFile (after [ProcessSettled (Fulfilled d1);
                           ProcessSettled (Fulfilled d2)])
      = Some (storedDocument d2)
      /\ uploadedFile (after [ProcessSettled (Fulfilled d2);
                              ProcessSettled (Fulfilled d1)])
         = Some (storedDocument d1))
  /\ (uploadedFile (after [ProcessSettled (Fulfilled d1);
                           ProcessSettled (Rejected error)])
      = Some (storedDocument d1)
      /\ uploadError (after [ProcessSettled (Fulfilled d1);
                             ProcessSettled (Rejected error)])
         = Some (uploadErrorMessage error))
  /\ (uploadedFile (after [ProcessSettled (Rejected error);
                           ProcessSettled (Fulfilled d1)])
      = Some (storedDocument d1)
      /\ uploadError (after [ProcessSettled (Rejected error);
                             ProcessSettled (Fulfilled d1)])
         = Some (uploadErrorMessage error)).
Proof.
  intros started after.
  split; [split; [reflexivity | destruct r; reflexivity]|].
  repeat split.
Qed.

(** ** Images *)

(** X15.  However a resize settles, the draft, the document, the upload
    flag and the upload error stay, and so does the guard of
    [sendQuestion]: an image never makes a send possible or impossible.  A
    success stores the encoded image; a failure leaves the whole state as it
    was, with no error for the user.  For any [sendQuestion], hence in both
    revisions. *)
Theorem resize_outcome
  (sendQuestion : Props -> State -> list effect) (props : Props) (s : State)
  (r : settled jsstring) (resized : jsstring) (error : thrown) :
  (question (step sendQuestion props s (ResizeSettled r)) = question s
   /\ uploadedFile (step sendQuestion props s (ResizeSettled r))
      = uploadedFile s
   /\ isUploading (step sendQuestion props s (ResizeSettled r))
      = isUploading s
   /\ uploadError (step sendQuestion props s (ResizeSettled r))
      = uploadError s
   /\ sendQuestionDisabled props (step sendQuestion props s (ResizeSettled r))
      = sendQuestionDisabled props s)
  /\ base64Image (step sendQuestion props s (ResizeSettled (Fulfilled resized)))
     = Some resized
  /\ step sendQuestion props s (ResizeSettled (Rejected error)) = s.
Proof.
  split; [destruct r; repeat split|].
  split; reflexivity.
Qed.

(** ** Typing, then sending *)

(** X16.  What was typed is what goes out: with the component enabled and
    nothing attached, after the text field reports a value that does not
    trim to the empty string, a click sends exactly that value; and after
    it reports no value, or the empty string, a click sends nothing.  In
    both revisions. *)
Theorem typed_draft_is_sent (props : Props) (s : State) (v : jsstring) :
  disabled props = false ->
  uploadedFile s = None ->
  base64Image s = None ->
  (trim v <> [] ->
   map payload
     (onSendCalls
        (handle QuestionInput.sendQuestion props
           (step QuestionInput.sendQuestion props s (QuestionChange (Some v)))
           SendClick))
   = [ContentString v]
   /\ map payload
        (onSendCalls
           (handle Part000.sendQuestion props
              (step Part000.sendQuestion props s (QuestionChange (Some v)))
              SendClick))
      = [ContentString v])
  /\ (forall blank, blank = None \/ blank = Some [] ->
      handle QuestionInput.sendQuestion props
        (step QuestionInput.sendQuestion props s (QuestionChange blank))
        SendClick = []
      /\ handle Part000.sendQuestion props
           (step Part000.sendQuestion props s (QuestionChange blank))
           SendClick = []).
Proof.
  intros Hd Hf Hi. split.
  - intros Ht.
    assert (E : step QuestionInput.sendQuestion props s
                  (QuestionChange (Some v))
                = step Part000.sendQuestion props s (QuestionChange (Some v)))
      by reflexivity.
    rewrite <- E.
    set (s1 := step QuestionInput.sendQuestion props s
                 (QuestionChange (Some v))).
    assert (Hq : question s1 = v).
    { unfold s1, step, handle, onQuestionChange. simpl.
      destruct v; reflexivity. }
    assert (Hf1 : uploadedFile s1 = None) by exact Hf.
    assert (Hi1 : base64Image s1 = None) by exact Hi.
    assert (Hg : sendQuestionDisabled props s1 = false).
    { apply sendQuestionDisabled_false. split; [exact Hd|].
      left. rewrite Hq. exact Ht. }
    destruct (sendQuestion_payloads props s1 Hg) as [E1 E2].
    unfold handle. rewrite E1, E2.
    unfold QuestionInput.questionTest, Part000.questionTest, questionContent.
    rewrite Hi1, Hf1, Hq. split; reflexivity.
  - intros blank Hb. unfold handle.
    assert (Hq : question (step QuestionInput.sendQuestion props s
                             (QuestionChange blank)) = [])
      by (destruct Hb as [-> | ->]; reflexivity).
    assert (E : step QuestionInput.sendQuestion props s (QuestionChange blank)
                = step Part000.sendQuestion props s (QuestionChange blank))
      by reflexivity.
    rewrite <- E.
    set (s1 := step QuestionInput.sendQuestion props s
                 (QuestionChange blank)) in *.
    assert (Hf1 : uploadedFile s1 = None) by exact Hf.
    assert (Hg : sendQuestionDisabled props s1 = true).
    { unfold sendQuestionDisabled. rewrite Hq, Hf1. apply orb_true_r. }
    destruct (sendQuestion_nil props s1) as [N1 N2].
    split; [apply N1 | apply N2]; exact Hg.
Qed.

Lemma typed_draft_is_sent_example :
  map payload
    (onSendCalls
       (handle QuestionInput.sendQuestion enabledProps
          (step QuestionInput.sendQuestion enabledProps initial
             (QuestionChange (Some (lit " two  words "))))
          SendClick))
  = [ContentString (lit " two  words ")]
  /\ handle Part000.sendQuestion enabledProps
       (step Part000.sendQuestion enabledProps draftOnly (QuestionChange None))
       SendClick = [].
Proof.
  assert (Ht : trim (lit " two  words ") <> []) by discriminate.
  split.
  - exact (proj1 (proj1 (typed_draft_is_sent enabledProps initial
                           (lit " two  words ") eq_refl eq_refl eq_refl)
                    Ht)).
  - exact (proj2 (proj2 (typed_draft_is_sent enabledProps draftOnly []
                           eq_refl eq_refl eq_refl)
                    None (or_introl eq_refl))).
Defined.

(** ** The collaborators *)

Lemma sendQuestion_calls_no_collaborator (props : Props) (s : State) :
  (processCalls (QuestionInput.sendQuestion props s) = []
   /\ resizeCalls (QuestionInput.sendQuestion props s) = [])
  /\ (processCalls (Part000.sendQuestion props s) = []
      /\ resizeCalls (Part000.sendQuestion props s) = []).
Proof.
  unfold QuestionInput.sendQuestion, Part000.sendQuestion, dispatch.
  destruct (sendQuestionDisabled props s); [repeat split|].
  destruct (conversationId props) as [[|c r]|];
    destruct (truthy_opt_bool (clearOnSend props)); repeat split.
Qed.

(** X17.  The document processor is called once for each change of the
    document input that holds a file, with that file, and by no other
    event; the resizer once for each change of the image input that holds a
    file, with that file and the bounds 800 by 800, and by no other event.
    A change of an input with no file calls neither.  In both revisions. *)
Theorem collaborators_called_by_inputs_only
  (props : Props) (s : State) (e : event) :
  (processCalls (handle QuestionInput.sendQuestion props s e)
   = match e with FileInputChange (Some f) => [f] | _ => [] end
   /\ resizeCalls (handle QuestionInput.sendQuestion props s e)
      = match e with
        | ImageInputChange (Some f) => [(f, 800, 800)]
        | _ => []
        end)
  /\ (processCalls (handle Part000.sendQuestion props s e)
      = match e with FileInputChange (Some f) => [f] | _ => [] end
      /\ resizeCalls (handle Part000.sendQuestion props s e)
         = match e with
           | ImageInputChange (Some f) => [(f, 800, 800)]
           | _ => []
           end).
Proof.
  destruct (sendQuestion_calls_no_collaborator props s)
    as [[P1 R1] [P2 R2]].
  destruct e as [v | ev | | ev | [f|] | [d|err] | [f|] | [v|err]];
    unfold handle, onEnterPress, onSendKeyDown;
    try (repeat split; fail).
  - destruct (str_eqb (key ev) (lit "Enter") && negb (shiftKey ev)
              && negb match isComposing ev with
                      | Some true => true | _ => false end);
      [|repeat split].
    simpl. repeat split; assumption.
  - repeat split; assumption.
  - destruct (str_eqb (key ev) (lit "Enter") || str_eqb (key ev) (lit " "));
      [|repeat split].
    repeat split; assumption.
Qed.

(** ** After a send *)

(** X18.  What is shown after a send that went out under [clearOnSend]: an
    empty text field, a document label that is no longer highlighted, the
    disabled send icon, and in [QuestionInput.tsx] no image preview; the
    error banner of an earlier failed upload is still there, a send does not
    dismiss it.  In both revisions. *)
Theorem view_after_clearing_send (props : Props) (s : State) :
  sendQuestionDisabled props s = false ->
  clearOnSend props = Some true ->
  let v1 := render_QuestionInput props
              (step QuestionInput.sendQuestion props s SendClick) in
  let v2 := render_Part000 props
              (step Part000.sendQuestion props s SendClick) in
  (textFieldValue v1 = []
   /\ fileLabelBackground v1 = None
   /\ imagePreview v1 = None
   /\ sendIcon v1 = SendRegularDisabled
   /\ errorBanner v1 = errorBanner (render_QuestionInput props s))
  /\ (textFieldValue v2 = []
      /\ fileLabelBackground v2 = Some (lit "#f3f2f1")
      /\ sendIcon v2 = SendRegularDisabled
      /\ errorBanner v2 = errorBanner (render_Part000 props s)).
Proof.
  intros Hg Hc v1 v2. unfold v1, v2, step, handle.
  destruct (run_sendQuestion props s) as [R1 R2].
  rewrite R1, R2, Hg, Hc. simpl.
  unfold sendQuestionDisabled. simpl. rewrite orb_true_r.
  repeat split.
Qed.

Lemma view_after_clearing_send_example :
  render_QuestionInput clearingProps
    (step QuestionInput.sendQuestion clearingProps draftAndImage SendClick)
  = {| errorBanner := None; textFieldValue := [];
       textFieldPlaceholder := None; fileLabelBackground := None;
       imageInput := true; imagePreview := None;
       sendIcon := SendRegularDisabled |}
  /\ sendIcon (render_Part000 clearingProps
                 (step Part000.sendQuestion clearingProps withDocument
                    SendClick))
     = SendRegularDisabled.
Proof.
  destruct (view_after_clearing_send clearingProps draftAndImage
              eq_refl eq_refl) as [[A1 [A2 [A3 [A4 A5]]]] _].
  destruct (view_after_clearing_send clearingProps withDocument
              eq_refl eq_refl) as [_ [_ [_ [B3 _]]]].
  split; [reflexivity | exact B3].
Defined.

(** ** A disabled component *)

(** X19.  While [disabled] is set no event invokes [onSend], and the events
    that run [sendQuestion] change no hook, even with [clearOnSend]; the
    disabled icon is shown.  Uploads are not held back: a change of the
    document input with a file still raises [isUploading] and calls the
    processor.  In both revisions. *)
Theorem disabled_component_never_sends
  (props : Props) (s : State) (e : event) (file : File) :
  disabled props = true ->
  (onSendCalls (handle QuestionInput.sendQuestion props s e) = []
   /\ (isSendEvent e = true ->
       step QuestionInput.sendQuestion props s e = s)
   /\ sendIcon (render_QuestionInput props s) = SendRegularDisabled)
  /\ (onSendCalls (handle Part000.sendQuestion props s e) = []
      /\ (isSendEvent e = true -> step Part000.sendQuestion props s e = s)
      /\ sendIcon (render_Part000 props s) = SendRegularDisabled)
  /\ (isUploading
        (step QuestionInput.sendQuestion props s (FileInputChange (Some file)))
      = true
      /\ processCalls
           (handle Part000.sendQuestion props s (FileInputChange (Some file)))
         = [file]).
Proof.
  intros Hd.
  assert (Hg : sendQuestionDisabled props s = true).
  { unfold sendQuestionDisabled. rewrite Hd. reflexivity. }
  assert (N1 : QuestionInput.sendQuestion props s = [])
    by (apply (proj1 (sendQuestion_nil props s)); exact Hg).
  assert (N2 : Part000.sendQuestion props s = [])
    by (apply (proj2 (sendQuestion_nil props s)); exact Hg).
  unfold render_QuestionInput, render_Part000, step, handle,
    onEnterPress, onSendKeyDown. simpl sendIcon.
  rewrite Hg, N1, N2.
  split; [|split; [|split; reflexivity]].
  - destruct e as [v | ev | | ev | [f|] | [d|err] | [f|] | [v|err]];
      repeat split; try discriminate;
      repeat match goal with
             | |- context [if ?b then _ else _] => destruct b
             end; reflexivity.
  - destruct e as [v | ev | | ev | [f|] | [d|err] | [f|] | [v|err]];
      repeat split; try discriminate;
      repeat match goal with
             | |- context [if ?b then _ else _] => destruct b
             end; reflexivity.
Qed.

Lemma disabled_component_never_sends_example :
  onSendCalls (handle QuestionInput.sendQuestion disabledProps withDocument
                 SendClick) = []
  /\ step Part000.sendQuestion disabledProps withDocument
       (TextKeyDown enterKey) = withDocument.
Proof.
  destruct (disabled_component_never_sends disabledProps withDocument
              SendClick (FileHandle 1) eq_refl) as [[A _] _].
  destruct (disabled_component_never_sends disabledProps withDocument
              (TextKeyDown enterKey) (FileHandle 1) eq_refl)
    as [_ [[_ [B _]] _]].
  split; [exact A | exact (B eq_refl)].
Defined.
